(** * Calo158: meal-analysis gateway, response cache and retry wrapper

    A shallow embedding of

      - [src/server/src/services/openai.ts]  (class [OpenAIService]: the
        response cache, the in-flight request queue, the response
        normalizer, the fallback generator and the fallback meal plan), and
      - [src/client/src/services/api.ts]     ([retryRequest], the axios
        interceptors, [AuthAPI], [NutritionAPI.analyzeMeal] and [ChatAPI]),

    together with the properties the specification states about them.

    Conventions.  JavaScript values are carried by the inductive type
    [JS.JSValue]; objects are association lists in property order.  A JS
    [number] is [NaN], an infinity or an exact rational: IEEE-754 rounding and
    overflow are not modelled, and [-0] is identified with [+0] (both are falsy;
    the one division, by [meals_per_day], gives a quotient that no meal
    carries when that number is a zero).  A string is a sequence of code units
    below 256.  Code that may throw returns [option] (the thrown value is
    dropped where the source's [catch] ignores it) or a sum whose right side is
    the thrown error.  Asynchronous functions are split at their [await]s into
    atomic segments, each a function on an explicit state. *)

From Stdlib Require Import ZArith QArith Qround Lqa Ascii String Lia.
From stdpp Require Import base list strings gmap pretty.
From Equations Require Import Equations.

Local Open Scope Z_scope.

(** ** A fragment of the JavaScript value domain *)

Module JS.

(** [number]: the values of the Number type. *)
Inductive number : Type :=
| NaN
| PosInf
| NegInf
| Fin (q : Q).

(** [a < b] on numbers; every comparison with [NaN] is false. *)
Definition ltb (a b : number) : bool :=
  match a, b with
  | NaN, _ | _, NaN => false
  | PosInf, _ | _, NegInf => false
  | NegInf, _ | _, PosInf => true
  | Fin x, Fin y => negb (Qle_bool y x)
  end.

(** [Math.max(a, b)] and [Math.min(a, b)] for two arguments. *)
Definition Math_max (a b : number) : number :=
  match a, b with
  | NaN, _ | _, NaN => NaN
  | _, _ => if ltb a b then b else a
  end.

Definition Math_min (a b : number) : number :=
  match a, b with
  | NaN, _ | _, NaN => NaN
  | _, _ => if ltb b a then b else a
  end.

(** [Math.floor] and [Math.round] (round half towards +Infinity). *)
Definition floorQ (q : Q) : Q := inject_Z (Qfloor q).
Definition roundQ (q : Q) : Q := inject_Z (Qfloor (q + (1 # 2))).

(** *** StringToNumber

    The grammar [StringNumericLiteral] of ECMA-262: optional white space
    around nothing (the value 0), a signed decimal literal with optional
    fraction and exponent, a signed [Infinity], or an unsigned binary, octal
    or hexadecimal integer.  Anything else is [NaN]. *)

Definition is_white_space (c : ascii) : bool :=
  let n := nat_of_ascii c in
  ((9 <=? n)%nat && (n <=? 13)%nat) || (n =? 32)%nat || (n =? 160)%nat.

Definition digit_of (base : Z) (c : ascii) : option Z :=
  let n := Z.of_nat (nat_of_ascii c) in
  let d := if (48 <=? n) && (n <=? 57) then n - 48
           else if (97 <=? n) && (n <=? 102) then n - 87
           else if (65 <=? n) && (n <=? 70) then n - 55
           else base in
  if d <? base then Some d else None.

(** Reads the longest run of digits: its value, its length and the rest. *)
Fixpoint read_digits (base : Z) (l : list ascii) (acc : Z) (len : nat)
  : Z * nat * list ascii :=
  match l with
  | c :: l' =>
      match digit_of base c with
      | Some d => read_digits base l' (acc * base + d) (S len)
      | None => (acc, len, l)
      end
  | [] => (acc, len, [])
  end.

Definition read_sign (l : list ascii) : bool * list ascii :=
  match l with
  | "+"%char :: l' => (false, l')
  | "-"%char :: l' => (true, l')
  | _ => (false, l)
  end.

(** [ExponentPart], when the whole remainder is one; [None] otherwise. *)
Definition read_exponent (l : list ascii) : option Z :=
  match l with
  | [] => Some 0
  | c :: l' =>
      if bool_decide (c = "e"%char) || bool_decide (c = "E"%char) then
        let '(neg, l'') := read_sign l' in
        match read_digits 10 l'' 0 0 with
        | (e, S _, []) => Some (if neg then - e else e)
        | _ => None
        end
      else None
  end.

Definition unsigned_decimal (l : list ascii) : option Q :=
  let '(ip, n1, r1) := read_digits 10 l 0 0 in
  match r1 with
  | "."%char :: r =>
      let '(fp, n2, r2) := read_digits 10 r 0 0 in
      if bool_decide (n1 = 0%nat) && bool_decide (n2 = 0%nat) then None
      else
        e ← read_exponent r2;
        Some ((inject_Z ip + inject_Z fp / inject_Z (10 ^ Z.of_nat n2))
              * Qpower (10 # 1) e)%Q
  | _ =>
      if bool_decide (n1 = 0%nat) then None
      else e ← read_exponent r1; Some (inject_Z ip * Qpower (10 # 1) e)%Q
  end.

Definition non_decimal (l : list ascii) : option Q :=
  match l with
  | "0"%char :: p :: r =>
      let base :=
        if bool_decide (p = "x"%char) || bool_decide (p = "X"%char) then 16
        else if bool_decide (p = "o"%char) || bool_decide (p = "O"%char) then 8
        else if bool_decide (p = "b"%char) || bool_decide (p = "B"%char) then 2
        else 0 in
      if base =? 0 then None
      else match read_digits base r 0 0 with
           | (v, S _, []) => Some (inject_Z v)
           | _ => None
           end
  | _ => None
  end.

Definition trim (l : list ascii) : list ascii :=
  let drop := fix drop (l : list ascii) :=
    match l with
    | c :: l' => if is_white_space c then drop l' else l
    | [] => []
    end in
  rev (drop (rev (drop l))).

Definition StringToNumber (s : string) : number :=
  let l := trim (list_ascii_of_string s) in
  match l with
  | [] => Fin 0
  | _ =>
      match non_decimal l with
      | Some q => Fin q
      | None =>
          let '(neg, u) := read_sign l in
          if bool_decide (u = list_ascii_of_string "Infinity") then
            if neg then NegInf else PosInf
          else match unsigned_decimal u with
               | Some q => Fin (if neg then - q else q)%Q
               | None => NaN
               end
      end
  end.

(** *** Values *)

#[local] Set Warnings "-register-all".

Inductive JSValue : Type :=
| JUndefined
| JNull
| JBool (b : bool)
| JNum (n : number)
| JStr (s : string)
| JArr (items : list JSValue)
| JObj (props : list (string * JSValue)).

(** ToBoolean: [undefined], [null], [false], [0], [NaN] and the empty string
    are falsy; every object and array is truthy. *)
Definition ToBoolean (v : JSValue) : bool :=
  match v with
  | JUndefined | JNull => false
  | JBool b => b
  | JNum NaN => false
  | JNum (Fin q) => negb (Qeq_bool q 0)
  | JNum _ => true
  | JStr s => negb (String.eqb s EmptyString)
  | JArr _ | JObj _ => true
  end.

(** [a || b] *)
Definition or_else (a b : JSValue) : JSValue := if ToBoolean a then a else b.

Fixpoint own_property (props : list (string * JSValue)) (k : string)
  : option JSValue :=
  match props with
  | (k', v) :: rest => if String.eqb k' k then Some v else own_property rest k
  | [] => None
  end.

(** [v.k] for a property name [k] that no built-in prototype defines (all
    names read in this file are such): [undefined] unless [v] is an object
    with its own [k]; reading a property of [undefined] or [null] throws. *)
Definition Get (v : JSValue) (k : string) : option JSValue :=
  match v with
  | JUndefined | JNull => None
  | JObj props => Some (default JUndefined (own_property props k))
  | _ => Some JUndefined
  end.

(** Converting a plain data object to a primitive calls the inherited
    [valueOf] (which returns the object itself) and then [toString]; an own
    property [toString] holding data shadows the inherited method and the
    conversion throws a TypeError.  Joining an array converts every
    element. *)
Fixpoint ToString_throws (v : JSValue) : bool :=
  match v with
  | JObj props => bool_decide (is_Some (own_property props "toString"))
  | JArr items => existsb ToString_throws items
  | _ => false
  end.

(** [Number(v)].  For an array this is StringToNumber of its [join(",")]:
    0 for the empty array, the number of the only element's string for a
    singleton ([null] and [undefined] join as the empty string), and [NaN]
    as soon as the joined string contains a comma. *)
Fixpoint ToNumber (v : JSValue) : option number :=
  match v with
  | JUndefined => Some NaN
  | JNull => Some (Fin 0)
  | JBool b => Some (Fin (if b then 1 else 0))
  | JNum n => Some n
  | JStr s => Some (StringToNumber s)
  | JObj props =>
      if ToString_throws v then None else Some NaN
  | JArr items =>
      if existsb ToString_throws items then None
      else match items with
           | [] => Some (Fin 0)
           | [x] =>
               match x with
               | JUndefined | JNull => Some (Fin 0)
               | JBool _ => Some NaN
               | _ => ToNumber x
               end
           | _ => Some NaN
           end
  end.

Definition isArray (v : JSValue) : bool :=
  match v with JArr _ => true | _ => false end.

(** [s.substring(0, n)] *)
Definition substring0 (n : nat) (s : string) : string := String.substring 0 n s.

(** [s.startsWith(t)] *)
Fixpoint starts_with (t s : string) : bool :=
  match t, s with
  | EmptyString, _ => true
  | String a t', String b s' => Ascii.eqb a b && starts_with t' s'
  | String _ _, EmptyString => false
  end.

(** [s.includes(t)] *)
Fixpoint includes (t s : string) : bool :=
  starts_with t s ||
  match s with
  | String _ s' => includes t s'
  | EmptyString => false
  end.

(** [s.replace(/\s+/g, "_")]: every maximal run of white space becomes one
    underscore. *)
Fixpoint replace_ws (in_run : bool) (s : string) : string :=
  match s with
  | String c s' =>
      if is_white_space c
      then (if in_run then replace_ws true s' else String "_" (replace_ws true s'))
      else String c (replace_ws false s')
  | EmptyString => EmptyString
  end.

End JS.

Import JS.


(** ** The server: [OpenAIService] *)

Module OpenAIService.

Definition CACHE_DURATION : Z := 10 * 60 * 1000.
Definition MAX_CACHE_SIZE : nat := 100.

(** A thrown value, as far as the source inspects it: [error.code] and
    [error.message]. *)
Record Error : Type := mkError {
  code : option string;
  message : option string;
}.

(** [new Error(msg)] *)
Definition new_Error (msg : string) : Error :=
  {| code := None; message := Some msg |}.

(** How the call [openai.chat.completions.create] settles: with a response
    whose first choice carries some content or none, or with an error. *)
Inductive Upstream : Type :=
| Responded (content : option string)
| Failed (e : Error).

(** Computations that read the ambient random source: they take the number
    of draws made so far and return the number made after. *)
Definition Rand (A : Type) : Type := nat → A * nat.

Definition ret {A} (a : A) : Rand A := λ i, (a, i).
Definition bind {A B} (m : Rand A) (k : A → Rand B) : Rand B :=
  λ i, let '(a, j) := m i in k a j.

#[local] Notation "'let*' x ':=' m 'in' k" := (bind m (λ x, k))
  (at level 10, x name, m at level 100, k at level 200, only parsing).

(** [result.k] of a result object, [undefined] when absent. *)
Definition prop (r : JSValue) (k : string) : JSValue :=
  match r with
  | JObj props => default JUndefined (own_property props k)
  | _ => JUndefined
  end.

Definition JQ (q : Q) : JSValue := JNum (Fin q).

(** The numeric fields every [MealAnalysisResult] must carry. *)
Definition required_numeric : list string :=
  ["calories"; "protein"; "carbs"; "fat"; "fiber"; "sugar"; "sodium"].

(** A defined number: of type number and not [NaN]. *)
Definition is_number (v : JSValue) : Prop :=
  ∃ n, v = JNum n ∧ n ≠ NaN.

(** A finite number between 1 and 100. *)
Definition in_confidence_range (v : JSValue) : Prop :=
  ∃ q, v = JNum (Fin q) ∧ (1 <= q <= 100)%Q.

(** [updateText ? a : b] and [updateText || ''] on an optional string. *)
Definition text_given (updateText : option string) : bool :=
  match updateText with
  | Some s => negb (String.eqb s EmptyString)
  | None => false
  end.

(** *** The response cache and the request queue *)

Record CacheEntry : Type := mkEntry {
  data : JSValue;
  timestamp : Z;
}.

(** [requestCache] is a JS [Map]: its keys are distinct and iterate in
    insertion order; [set] on a present key keeps the key's place. *)
Abbreviation Cache := (list (string * CacheEntry)).

Fixpoint Map_get (m : Cache) (k : string) : option CacheEntry :=
  match m with
  | (k', e) :: m' => if String.eqb k' k then Some e else Map_get m' k
  | [] => None
  end.

Fixpoint Map_set (m : Cache) (k : string) (e : CacheEntry) : Cache :=
  match m with
  | (k', e') :: m' =>
      if String.eqb k' k then (k', e) :: m' else (k', e') :: Map_set m' k e
  | [] => [(k, e)]
  end.

Definition Map_delete (m : Cache) (k : string) : Cache :=
  filter (λ kv, negb (String.eqb (fst kv) k)) m.

(** [m.keys().next().value] *)
Definition Map_first_key (m : Cache) : option string := fst <$> head m.

(** What a call of [analyzeMealImage] or of the other entry points is
    waiting for. *)
Record Call : Type := mkCall {
  call_language : string;
  call_updateText : option string;
}.

(** The module state.  Promises returned by [_performMealAnalysis] are
    numbered in creation order: promise [p] is pending while [inflight]
    holds it and settled once [settled] does.  [awaiting] lists the calls
    of [analyzeMealImage] suspended at [await requestPromise], [timers]
    the clean-up callbacks passed to [setTimeout] with the time from which
    they may run, and [draws] counts the values taken from the random
    source. *)
Record State : Type := mkState {
  requestCache : Cache;
  requestQueue : gmap string nat;
  performed : nat;
  inflight : gmap nat Call;
  settled : gmap nat (JSValue + Error);
  awaiting : list (nat * string);
  timers : list (Z * string);
  draws : nat;
}.

Definition init : State :=
  {| requestCache := []; requestQueue := ∅; performed := 0;
     inflight := ∅; settled := ∅; awaiting := []; timers := []; draws := 0 |}.

Definition with_cache (s : State) (c : Cache) : State :=
  {| requestCache := c; requestQueue := requestQueue s;
     performed := performed s; inflight := inflight s;
     settled := settled s; awaiting := awaiting s; timers := timers s;
     draws := draws s |}.

Definition with_draws (s : State) (n : nat) : State :=
  {| requestCache := requestCache s; requestQueue := requestQueue s;
     performed := performed s; inflight := inflight s;
     settled := settled s; awaiting := awaiting s; timers := timers s;
     draws := n |}.

(** Runs a computation on the random source of the state. *)
Definition sample {A} (m : Rand A) (s : State) : A * State :=
  let '(a, n) := m (draws s) in (a, with_draws s n).

Definition createRequestKey (prompt type : string) : string :=
  type +:+ "_" +:+ replace_ws false (substring0 100 prompt).

(** [getCachedResponse]: the entry's data, or [null]. *)
Definition getCachedResponse (c : Cache) (key : string) (now : Z) : JSValue :=
  match Map_get c key with
  | Some cached =>
      if now - timestamp cached <? CACHE_DURATION then data cached else JNull
  | None => JNull
  end.

Definition setCachedResponse (c : Cache) (key : string) (d : JSValue)
    (now : Z) : Cache :=
  let c' :=
    if (MAX_CACHE_SIZE <=? length c)%nat
    then match Map_first_key c with
         | Some oldestKey => Map_delete c oldestKey
         | None => c
         end
    else c in
  Map_set c' key {| data := d; timestamp := now |}.

(** What a call of [analyzeMealImage] does before it first suspends. *)
Inductive Returned : Type :=
| Now (v : JSValue)    (** returns [v], taken from the cache *)
| Shared (p : nat)     (** returns the promise registered in the queue *)
| Started (p : nat).   (** called [_performMealAnalysis], got the new
                           promise [p], registered it and awaits it *)

Definition analyze_key (imageBase64 language : string)
    (updateText : option string) : string :=
  createRequestKey
    (substring0 50 imageBase64 +:+ "_" +:+
     (if text_given updateText then default EmptyString updateText else EmptyString) +:+
     "_" +:+ language)
    "analyze".

Section Service.

(** [extractCleanJSON] and [parsePartialJSON] are imported from
    [../utils/openai] and not modelled: they stand for any two functions
    that return a value or throw. *)
Variable extractCleanJSON : string → option string.
Variable parsePartialJSON : string → option JSValue.

(** [Math_random i] is the [i]-th value the random source hands out. *)
Variable Math_random : nat → Q.

Definition random : Rand Q := λ i, (Math_random i, S i).

Definition generateEnhancedFallbackAnalysis
    (language : string) (updateText : option string) : Rand JSValue :=
  let isHebrew := String.eqb language "hebrew" in
  let* r1 := random in
  let baseCalories := (300 + floorQ (r1 * 400))%Q in
  let* r2 := random in
  let proteinRatio := (0.15 + r2 * 0.15)%Q in
  let* r3 := random in
  let carbRatio := (0.35 + r3 * 0.25)%Q in
  let fatRatio := (1 - proteinRatio - carbRatio)%Q in
  let* r4 := random in
  let* r5 := random in
  let* r6 := random in
  let* r7 := random in
  let* r8 := random in
  let* r9 := random in
  ret (JObj [
    ("name", JStr
       (if text_given updateText
        then (if isHebrew then "ארוחה מעודכנת - " else "Updated meal - ")
             +:+ substring0 20 (default EmptyString updateText)
        else (if isHebrew then "ארוחה מנותחת" else "Analyzed meal")));
    ("calories", JQ baseCalories);
    ("protein", JQ (roundQ ((baseCalories * proteinRatio) / 4)));
    ("carbs", JQ (roundQ ((baseCalories * carbRatio) / 4)));
    ("fat", JQ (roundQ ((baseCalories * fatRatio) / 9)));
    ("fiber", JQ (roundQ (3 + r4 * 7)));
    ("sugar", JQ (roundQ (5 + r5 * 15)));
    ("sodium", JQ (roundQ (200 + r6 * 600)));
    ("confidence", JQ 65);
    ("ingredients", JArr [JObj [
       ("name", JStr (if isHebrew then "מרכיב עיקרי" else "Main ingredient"));
       ("calories", JQ (roundQ (baseCalories * 0.6)));
       ("protein", JQ (roundQ ((baseCalories * proteinRatio * 0.6) / 4)));
       ("carbs", JQ (roundQ ((baseCalories * carbRatio * 0.6) / 4)));
       ("fat", JQ (roundQ ((baseCalories * fatRatio * 0.6) / 9)));
       ("fiber", JQ (roundQ (2 + r7 * 4)));
       ("sugar", JQ (roundQ (3 + r8 * 8)));
       ("sodium_mg", JQ (roundQ (100 + r9 * 300)))]]);
    ("servingSize", JStr (if isHebrew then "מנה בינונית" else "Medium serving"));
    ("cookingMethod", JStr (if isHebrew then "בישול רגיל" else "Regular cooking"));
    ("healthNotes", JStr
       (if isHebrew
        then "ניתוח זה מבוסס על הערכה כללית. לדיוק מירבי, אנא ספק פרטים נוספים."
        else "This analysis is based on general estimation. For maximum accuracy, please provide additional details."))
  ]%Q).

(** [Number(parsed.k)]: reading the property or converting it may throw. *)
Definition Number_of (parsed : JSValue) (k : string) : option number :=
  v ← Get parsed k; ToNumber v.

(** [Number(parsed.k) || d] *)
Definition number_or (parsed : JSValue) (k : string) (d : JSValue)
  : option JSValue :=
  n ← Number_of parsed k; Some (or_else (JNum n) d).

(** [parsed.k || d] *)
Definition value_or (parsed : JSValue) (k : string) (d : JSValue)
  : option JSValue :=
  v ← Get parsed k; Some (or_else v d).

(** [Math.min(100, Math.max(1, Number(parsed.confidence) || 75))] *)
Definition confidence_of (parsed : JSValue) : option JSValue :=
  n ← Number_of parsed "confidence";
  match or_else (JNum n) (JQ 75) with
  | JNum x => Some (JNum (Math_min (Fin 100) (Math_max (Fin 1) x)))
  | _ => None
  end.

(** The object literal of [parseAnalysisResponse]; [None] when evaluating
    it throws. *)
Definition normalize (parsed : JSValue) (language : string)
  : option JSValue :=
  let isHebrew := String.eqb language "hebrew" in
  let zero := JQ 0 in
  name ← value_or parsed "name" (JStr (if isHebrew then "ארוחה" else "Meal"));
  calories ← number_or parsed "calories" zero;
  protein ← number_or parsed "protein" zero;
  carbs ← number_or parsed "carbs" zero;
  fat ← number_or parsed "fat" zero;
  fiber ← number_or parsed "fiber" zero;
  sugar ← number_or parsed "sugar" zero;
  sodium ← number_or parsed "sodium" zero;
  confidence ← confidence_of parsed;
  ingredients ← Get parsed "ingredients";
  servingSize ← value_or parsed "servingSize"
                  (JStr (if isHebrew then "מנה אחת" else "1 serving"));
  cookingMethod ← value_or parsed "cookingMethod"
                    (JStr (if isHebrew then "לא ידוע" else "Unknown"));
  healthNotes ← value_or parsed "healthNotes" (JStr EmptyString);
  saturated_fats_g ← number_or parsed "saturated_fats_g" JUndefined;
  polyunsaturated_fats_g ← number_or parsed "polyunsaturated_fats_g" JUndefined;
  monounsaturated_fats_g ← number_or parsed "monounsaturated_fats_g" JUndefined;
  omega_3_g ← number_or parsed "omega_3_g" JUndefined;
  omega_6_g ← number_or parsed "omega_6_g" JUndefined;
  soluble_fiber_g ← number_or parsed "soluble_fiber_g" JUndefined;
  insoluble_fiber_g ← number_or parsed "insoluble_fiber_g" JUndefined;
  cholesterol_mg ← number_or parsed "cholesterol_mg" JUndefined;
  alcohol_g ← number_or parsed "alcohol_g" JUndefined;
  caffeine_mg ← number_or parsed "caffeine_mg" JUndefined;
  liquids_ml ← number_or parsed "liquids_ml" JUndefined;
  serving_size_g ← number_or parsed "serving_size_g" JUndefined;
  allergens_json ← value_or parsed "allergens_json" (JObj []);
  vitamins_json ← value_or parsed "vitamins_json" (JObj []);
  micronutrients_json ← value_or parsed "micronutrients_json" (JObj []);
  glycemic_index ← number_or parsed "glycemic_index" JUndefined;
  insulin_index ← number_or parsed "insulin_index" JUndefined;
  food_category ← value_or parsed "food_category" (JStr EmptyString);
  processing_level ← value_or parsed "processing_level" (JStr EmptyString);
  cooking_method ← value_or parsed "cooking_method" (JStr EmptyString);
  additives_json ← value_or parsed "additives_json" (JObj []);
  health_risk_notes ← value_or parsed "health_risk_notes" JUndefined;
  Some (JObj [
    ("name", name);
    ("calories", calories);
    ("protein", protein);
    ("carbs", carbs);
    ("fat", fat);
    ("fiber", fiber);
    ("sugar", sugar);
    ("sodium", sodium);
    ("confidence", confidence);
    ("ingredients", if isArray ingredients then ingredients else JArr []);
    ("servingSize", servingSize);
    ("cookingMethod", cookingMethod);
    ("healthNotes", healthNotes);
    ("saturated_fats_g", saturated_fats_g);
    ("polyunsaturated_fats_g", polyunsaturated_fats_g);
    ("monounsaturated_fats_g", monounsaturated_fats_g);
    ("omega_3_g", omega_3_g);
    ("omega_6_g", omega_6_g);
    ("soluble_fiber_g", soluble_fiber_g);
    ("insoluble_fiber_g", insoluble_fiber_g);
    ("cholesterol_mg", cholesterol_mg);
    ("alcohol_g", alcohol_g);
    ("caffeine_mg", caffeine_mg);
    ("liquids_ml", liquids_ml);
    ("serving_size_g", serving_size_g);
    ("allergens_json", allergens_json);
    ("vitamins_json", vitamins_json);
    ("micronutrients_json", micronutrients_json);
    ("glycemic_index", glycemic_index);
    ("insulin_index", insulin_index);
    ("food_category", food_category);
    ("processing_level", processing_level);
    ("cooking_method", cooking_method);
    ("additives_json", additives_json);
    ("health_risk_notes", health_risk_notes)
  ]).

(** The [try] block of [parseAnalysisResponse]. *)
Definition try_parse (content language : string) : option JSValue :=
  cleanedContent ← extractCleanJSON content;
  parsed ← parsePartialJSON cleanedContent;
  normalize parsed language.

Definition parseAnalysisResponse (content language : string) : Rand JSValue :=
  match try_parse content language with
  | Some result => ret result
  | None => generateEnhancedFallbackAnalysis language None
  end.

(** Whether the module-level [openai] client exists, that is, whether
    [OPENAI_API_KEY] was set when the module was loaded. *)
Variable openai : bool.

(** [!content] for the content of the first choice. *)
Definition no_content (content : option string) : bool :=
  negb (text_given content).

(** The errors the [catch] block of [_performMealAnalysis] answers with
    an error of its own: rate limit, exhausted quota, timeout. *)
Definition rethrown (error : Error) : bool :=
  bool_decide (code error = Some "rate_limit_exceeded") ||
  bool_decide (code error = Some "insufficient_quota") ||
  from_option (includes "timeout") false (message error).

(** The [catch] block of [_performMealAnalysis]. *)
Definition analysis_catch (error : Error) (language : string)
    (updateText : option string) : Rand (JSValue + Error) :=
  if bool_decide (code error = Some "rate_limit_exceeded") then
    ret (inr (new_Error "AI service is busy. Please try again in a moment."))
  else if bool_decide (code error = Some "insufficient_quota") then
    ret (inr (new_Error "AI analysis quota exceeded. Please try again later."))
  else if from_option (includes "timeout") false (message error) then
    ret (inr (new_Error "Analysis is taking too long. Please try again."))
  else
    let* r := generateEnhancedFallbackAnalysis language updateText in
    ret (inl r).

(** [_performMealAnalysis] from the point where the upstream call settles:
    the rest of the [try] block, then the [catch] block. *)
Definition _performMealAnalysis (up : Upstream) (language : string)
    (updateText : option string) : Rand (JSValue + Error) :=
  match up with
  | Responded content =>
      if no_content content
      then analysis_catch (new_Error "No content in OpenAI response")
             language updateText
      else let* r := parseAnalysisResponse (default EmptyString content) language in
           ret (inl r)
  | Failed error => analysis_catch error language updateText
  end.

(** [analyzeMealImage] up to [await requestPromise].  Without a client,
    [_performMealAnalysis] returns the fallback at once and its promise is
    born fulfilled; with one, the upstream call is issued and the promise
    is pending.  [editedIngredients] only enters the prompt. *)
Definition analyzeMealImage (s : State) (imageBase64 language : string)
    (updateText : option string) (editedIngredients : list JSValue)
    (now : Z) : Returned * State :=
  let requestKey := analyze_key imageBase64 language updateText in
  let cached := getCachedResponse (requestCache s) requestKey now in
  if ToBoolean cached then (Now cached, s)
  else match requestQueue s !! requestKey with
  | Some p => (Shared p, s)
  | None =>
      let p := performed s in
      let call := {| call_language := language; call_updateText := updateText |} in
      let '(born, s1) :=
        if openai then (None, s)
        else let '(r, s') :=
               sample (generateEnhancedFallbackAnalysis language updateText) s
             in (Some r, s') in
      (Started p,
       {| requestCache := requestCache s1;
          requestQueue := <[requestKey := p]> (requestQueue s1);
          performed := S p;
          inflight := match born with
                      | None => <[p := call]> (inflight s1)
                      | Some _ => inflight s1
                      end;
          settled := match born with
                     | None => settled s1
                     | Some r => <[p := inl r]> (settled s1)
                     end;
          awaiting := awaiting s1 ++ [(p, requestKey)];
          timers := timers s1;
          draws := draws s1 |})
  end.

(** The upstream call behind the pending promise [p] settles and
    [_performMealAnalysis] runs to its end. *)
Definition upstream_settles (s : State) (p : nat) (up : Upstream) : State :=
  match inflight s !! p with
  | Some call =>
      let '(outcome, s1) :=
        sample (_performMealAnalysis up (call_language call)
                  (call_updateText call)) s in
      {| requestCache := requestCache s1; requestQueue := requestQueue s1;
         performed := performed s1;
         inflight := delete p (inflight s1);
         settled := <[p := outcome]> (settled s1);
         awaiting := awaiting s1; timers := timers s1; draws := draws s1 |}
  | None => s
  end.

(** [analyzeMealImage] after [await requestPromise], for the call that
    registered [p] under [requestKey]: what the call returns or throws,
    and the state after the [finally] block. *)
Definition analyzeMealImage_resume (s : State) (p : nat) (requestKey : string)
    (now : Z) : option ((JSValue + Error) * State) :=
  outcome ← settled s !! p;
  let c := match outcome with
           | inl result => setCachedResponse (requestCache s) requestKey result now
           | inr _ => requestCache s
           end in
  Some (outcome,
        {| requestCache := c; requestQueue := requestQueue s;
           performed := performed s; inflight := inflight s;
           settled := settled s;
           awaiting := filter (λ w, negb (bool_decide (w = (p, requestKey))))
                         (awaiting s);
           timers := timers s ++ [(now + 1000, requestKey)];
           draws := draws s |}).

(** The [i]-th pending timer runs its callback
    [() => requestQueue.delete(requestKey)]; never before it is due. *)
Definition timer_fires (s : State) (i : nat) (now : Z) : option State :=
  t ← timers s !! i;
  if fst t <=? now then
    Some {| requestCache := requestCache s;
            requestQueue := delete (snd t) (requestQueue s);
            performed := performed s; inflight := inflight s;
            settled := settled s; awaiting := awaiting s;
            timers := delete i (timers s); draws := draws s |}
  else None.

Definition clearCaches (s : State) : State :=
  {| requestCache := []; requestQueue := ∅;
     performed := performed s; inflight := inflight s;
     settled := settled s; awaiting := awaiting s;
     timers := timers s; draws := draws s |}.

(** *** The entry points that use the cache without the queue

    Each is split at its one [await]: the first part answers from the
    cache, answers without a client, or issues the upstream call; the
    second part runs when that call settles. *)

Inductive Begun : Type :=
| FromCache (v : JSValue)
| Unavailable (v : JSValue)
| Called (requestKey : string).

Definition update_key (updateText language : string) : string :=
  createRequestKey ("update_" +:+ updateText +:+ "_" +:+ language) "update".

Definition updateMealAnalysis (s : State) (originalAnalysis : JSValue)
    (updateText language : string) (now : Z) : Begun * State :=
  let requestKey := update_key updateText language in
  let cached := getCachedResponse (requestCache s) requestKey now in
  if ToBoolean cached then (FromCache cached, s)
  else if negb openai then
    let '(r, s') :=
      sample (generateEnhancedFallbackAnalysis language (Some updateText)) s in
    (Unavailable r, s')
  else (Called requestKey, s).

Definition updateMealAnalysis_resume (s : State) (up : Upstream)
    (updateText language : string) (now : Z) : JSValue * State :=
  let requestKey := update_key updateText language in
  match up with
  | Responded content =>
      if no_content content
      then sample (generateEnhancedFallbackAnalysis language (Some updateText)) s
      else
        let '(result, s1) :=
          sample (parseAnalysisResponse (default EmptyString content) language) s in
        (result,
         with_cache s1 (setCachedResponse (requestCache s1) requestKey result now))
  | Failed _ =>
      sample (generateEnhancedFallbackAnalysis language (Some updateText)) s
  end.

Definition generateText (s : State) (prompt : string) (now : Z)
  : Begun * State :=
  let requestKey := createRequestKey prompt "text" in
  let cached := getCachedResponse (requestCache s) requestKey now in
  if ToBoolean cached then (FromCache cached, s)
  else if negb openai then
    (Unavailable
       (JStr "AI text generation is not available. Please configure OpenAI API key."),
     s)
  else (Called requestKey, s).

Definition generateText_resume (s : State) (up : Upstream)
    (prompt : string) (now : Z) : JSValue * State :=
  let requestKey := createRequestKey prompt "text" in
  match up with
  | Responded content =>
      let result := JStr (if text_given content then default EmptyString content else EmptyString) in
      (result,
       with_cache s (setCachedResponse (requestCache s) requestKey result now))
  | Failed _ => (JStr "Text generation failed. Please try again.", s)
  end.

(** [parseMealPlanResponse]; [None] when it throws. *)
Definition parseMealPlanResponse (content : string) : option JSValue :=
  cleanedContent ← extractCleanJSON content;
  parsePartialJSON cleanedContent.

(** [generateMealPlan].  [fingerprint] is the template string built from
    the request's calorie target, meal count and dietary preferences.  The
    plan made by [generateFallbackMealPlan] is not represented: [None]
    stands for it, here and in [generateMealPlan_resume]. *)
Definition generateMealPlan (s : State) (fingerprint : string) (now : Z)
  : option Begun :=
  let requestKey := createRequestKey fingerprint "mealplan" in
  let cached := getCachedResponse (requestCache s) requestKey now in
  if ToBoolean cached then Some (FromCache cached)
  else if negb openai then None
  else Some (Called requestKey).

Definition generateMealPlan_resume (s : State) (up : Upstream)
    (fingerprint : string) (now : Z) : option JSValue * State :=
  let requestKey := createRequestKey fingerprint "mealplan" in
  match up with
  | Responded content =>
      if no_content content then (None, s)
      else match parseMealPlanResponse (default EmptyString content) with
           | Some result =>
               (Some result,
                with_cache s
                  (setCachedResponse (requestCache s) requestKey result now))
           | None => (None, s)
           end
  | Failed _ => (None, s)
  end.

(** *** Interleavings

    One atomic segment of one call.  Segments of different calls
    interleave freely; the environment chooses the arguments, the clock
    readings and how upstream calls settle.  [generateFallbackMealPlan]
    only draws random values. *)
Inductive step : State → State → Prop :=
| step_analyze s imageBase64 language updateText edited now :
    step s (snd (analyzeMealImage s imageBase64 language updateText edited now))
| step_upstream s p up :
    step s (upstream_settles s p up)
| step_analyze_resume s p requestKey now outcome s' :
    (p, requestKey) ∈ awaiting s →
    analyzeMealImage_resume s p requestKey now = Some (outcome, s') →
    step s s'
| step_timer s i now s' :
    timer_fires s i now = Some s' →
    step s s'
| step_update s original updateText language now :
    step s (snd (updateMealAnalysis s original updateText language now))
| step_update_resume s up updateText language now :
    step s (snd (updateMealAnalysis_resume s up updateText language now))
| step_text s prompt now :
    step s (snd (generateText s prompt now))
| step_text_resume s up prompt now :
    step s (snd (generateText_resume s up prompt now))
| step_mealplan_resume s up fingerprint now :
    step s (snd (generateMealPlan_resume s up fingerprint now))
| step_fallback_plan s n :
    step s (with_draws s (draws s + n))
| step_clear s :
    step s (clearCaches s).

Definition reachable (s : State) : Prop := rtc step init s.

(** One operation of the service: a segment of an entry point, or one of
    the two private methods on its own: [getCachedResponse], which only
    reads, and [setCachedResponse]. *)
Definition operation (s s' : State) : Prop :=
  step s s' ∨
  s' = s ∨
  (∃ key d now,
     s' = with_cache s (setCachedResponse (requestCache s) key d now)).

(** The cache holds no more than its capacity. *)
Definition bounded (s : State) : Prop :=
  (length (requestCache s) ≤ MAX_CACHE_SIZE)%nat.

(** Analysis results are objects, hence truthy: those the promises were
    fulfilled with and those cached under the keys of
    [analyzeMealImage]. *)
Definition results_truthy (s : State) : Prop :=
  (∀ key entry,
     Map_get (requestCache s) key = Some entry →
     starts_with "analyze_" key = true →
     ToBoolean (data entry) = true) ∧
  (∀ p r, settled s !! p = Some (inl r) → ToBoolean r = true).

End Service.
End OpenAIService.

(** ** The client: [services/api.ts] *)

Module Client.

(** [API_CONFIG] *)
Definition retryAttempts : positive := 3.
Definition retryDelay : Z := 1000.
Definition maxRetryDelay : Z := 5000.

(** A rejection, as far as [retryRequest] and the response interceptor look
    at it: [error.response?.status] and [error.name]; [detail] stands for
    everything else the error carries. *)
Record Error : Type := mkError {
  status : option Z;
  name : string;
  detail : string;
}.

Record Response : Type := mkResponse {
  response_status : Z;
  response_data : JSValue;
}.

Definition Outcome : Type := Response + Error.

(** What [retryRequest] does, in order: the attempts with the way each
    settled, and the pauses between them in milliseconds. *)
Inductive Event : Type :=
| Attempted (attempt : positive) (o : Outcome)
| Slept (ms : Z).

(** "Don't retry on certain error types" *)
Definition no_retry (error : Error) : bool :=
  bool_decide (status error = Some 401) ||
  bool_decide (status error = Some 403) ||
  bool_decide (status error = Some 422) ||
  String.eqb (name error) "AbortError".

(** [Math.min(retryDelay * Math.pow(2, attempt - 1), maxRetryDelay)] *)
Definition backoff (attempt : positive) : Z :=
  Z.min (retryDelay * 2 ^ (Z.pos attempt - 1)) maxRetryDelay.

Section Retry.

(** [requestFn] acts on some world [W]: every call settles one way or the
    other and leaves the world changed. *)
Context {W : Type}.
Variable requestFn : W → Outcome * W.

(** [retryRequest(requestFn, attempt)].  [attempt] is a positive number:
    the function is private to the module, every call site leaves the
    default 1, and the recursion passes [attempt + 1]. *)
Equations? retryRequest (w : W) (attempt : positive)
  : Outcome * W * list Event
  by wf (Pos.to_nat retryAttempts - Pos.to_nat attempt)%nat lt :=
  retryRequest w attempt with requestFn w => {
    | (inl response, w') => (inl response, w', [Attempted attempt (inl response)]);
    | (inr error, w') with decide (retryAttempts ≤ attempt)%positive => {
        | left _ => (inr error, w', [Attempted attempt (inr error)]);
        | right _ with no_retry error => {
            | true => (inr error, w', [Attempted attempt (inr error)]);
            | false with retryRequest w' (attempt + 1) => {
                | (o, w'', log) =>
                    (o, w'',
                     Attempted attempt (inr error)
                       :: Slept (backoff attempt) :: log)
              }
          }
      }
  }.
Proof. unfold retryAttempts in *. lia. Qed.

(** The replies [requestFn] gives when called [n] times in a row from
    the world [w], and the world it leaves behind. *)
Fixpoint replies (w : W) (n : nat) : list Outcome :=
  match n with
  | O => []
  | S n' => let '(o, w') := requestFn w in o :: replies w' n'
  end.

Fixpoint world_after (w : W) (n : nat) : W :=
  match n with
  | O => w
  | S n' => world_after (snd (requestFn w)) n'
  end.

End Retry.

Definition attempts_of (log : list Event) : list Outcome :=
  omap (λ ev, match ev with Attempted _ o => Some o | Slept _ => None end) log.

Definition pauses_of (log : list Event) : list Z :=
  omap (λ ev, match ev with Slept ms => Some ms | Attempted _ _ => None end) log.

(** The log of attempts numbered from [attempt] on that settle as [os], with
    the pause [backoff k] between attempt [k] and attempt [k + 1]. *)
Fixpoint schedule (os : list Outcome) (attempt : positive) : list Event :=
  match os with
  | [] => []
  | [o] => [Attempted attempt o]
  | o :: os' =>
      Attempted attempt o :: Slept (backoff attempt) :: schedule os' (attempt + 1)
  end.

(** Why a run may end with the attempt numbered [k] that settled as [o]:
    it succeeded, the ceiling was reached, or the error is one of those
    never retried. *)
Definition final (o : Outcome) (k : nat) : Prop :=
  match o with
  | inl _ => True
  | inr error => (Pos.to_nat retryAttempts ≤ k)%nat ∨ no_retry error = true
  end.

(** *** The axios instance and its interceptors *)

Inductive Platform : Type := Web | Native.

(** The device: the three token stores, whether [SecureStore] calls throw
    (the source guards them with [try]/[catch]), and [window.location.href]
    where [window.location] exists. *)
Record Device : Type := mkDevice {
  platform : Platform;
  localStorage : gmap string string;
  secureStore : gmap string string;
  secureStore_throws : bool;
  asyncStorage : gmap string string;
  location : option string;
}.

(** The world of a request: the device, how the coming requests will
    settle (with a response, or with an error raised by the backend or on
    the way to it), and the [Authorization] header of every request sent so
    far. *)
Record World : Type := mkWorld {
  device : Device;
  upcoming : list Outcome;
  sent : list (option string);
}.

(** The request interceptor's token: [localStorage] on the web, otherwise
    [SecureStore] and, when that throws, [AsyncStorage]. *)
Definition request_token (d : Device) : option string :=
  match platform d with
  | Web => localStorage d !! "auth_token"
  | Native =>
      if secureStore_throws d then asyncStorage d !! "auth_token"
      else secureStore d !! "auth_token_secure"
  end.

(** [`Bearer ${token}`], attached when the token is truthy. *)
Definition authorization (d : Device) : option string :=
  match request_token d with
  | Some token => if String.eqb token EmptyString then None else Some ("Bearer " +:+ token)
  | None => None
  end.

(** The [try] block that clears the tokens on a 401; a throwing
    [SecureStore.deleteItemAsync] leaves the block before
    [AsyncStorage.removeItem] runs, and the [catch] only logs. *)
Definition clear_auth (d : Device) : Device :=
  match platform d with
  | Web =>
      {| platform := platform d;
         localStorage := delete "auth_token" (localStorage d);
         secureStore := secureStore d;
         secureStore_throws := secureStore_throws d;
         asyncStorage := asyncStorage d;
         location := location d |}
  | Native =>
      if secureStore_throws d then d
      else
        {| platform := platform d;
           localStorage := localStorage d;
           secureStore := delete "auth_token_secure" (secureStore d);
           secureStore_throws := secureStore_throws d;
           asyncStorage := delete "auth_token" (asyncStorage d);
           location := location d |}
  end.

Definition redirect_to_signin (d : Device) : Device :=
  {| platform := platform d; localStorage := localStorage d;
     secureStore := secureStore d;
     secureStore_throws := secureStore_throws d;
     asyncStorage := asyncStorage d;
     location := (λ _, "/signin") <$> location d |}.

(** The response interceptor's error handler; it rejects with the same
    [error]. *)
Definition on_rejected (d : Device) (error : Error) : Device :=
  if bool_decide (status error = Some 401)
  then redirect_to_signin (clear_auth d)
  else d.

(** [AuthAPI.signOut], after the request: the sibling that clears the same
    stores; its own [try]/[catch] around [SecureStore.deleteItemAsync] lets
    [AsyncStorage.removeItem] run in every case. *)
Definition signOut_clear (d : Device) : Device :=
  match platform d with
  | Web =>
      {| platform := platform d;
         localStorage := delete "auth_token" (localStorage d);
         secureStore := secureStore d;
         secureStore_throws := secureStore_throws d;
         asyncStorage := asyncStorage d;
         location := location d |}
  | Native =>
      {| platform := platform d;
         localStorage := localStorage d;
         secureStore := if secureStore_throws d then secureStore d
                        else delete "auth_token_secure" (secureStore d);
         secureStore_throws := secureStore_throws d;
         asyncStorage := delete "auth_token" (asyncStorage d);
         location := location d |}
  end.

Definition network_error : Error :=
  {| status := None; name := "AxiosError"; detail := "Network Error" |}.

(** One request through the axios instance, [() => api.post(...)] and the
    like: the request interceptor attaches the token, the request settles
    as the world says (as a network error when it says nothing), the
    response interceptor runs. *)
Definition api_request (w : World) : Outcome * World :=
  let header := authorization (device w) in
  let reply := default (inr network_error) (head (upcoming w)) in
  let d := match reply with
           | inl _ => device w
           | inr error => on_rejected (device w) error
           end in
  (reply, {| device := d; upcoming := tail (upcoming w);
             sent := sent w ++ [header] |}).

(** *** [NutritionAPI.analyzeMeal] *)

(** The class state: the request queue, the number of [retryRequest]
    computations started for it (its promises are numbered in that order),
    and the pending clean-up timers. *)
Record State : Type := mkState {
  requestQueue : gmap string nat;
  started : nat;
  timers : list (Z * string);
}.

Definition init : State :=
  {| requestQueue := ∅; started := 0; timers := [] |}.

Inductive Returned : Type :=
| Shared (p : nat)     (** returns the promise registered in the queue *)
| Started (p : nat).   (** started [retryRequest], registered its promise
                           [p] and awaits it *)

Definition analyze_key (imageBase64 : string) (updateText : option string)
  : string :=
  "analyze_" +:+ substring0 50 imageBase64 +:+ "_" +:+
  (match updateText with
   | Some t => t
   | None => EmptyString
   end).

(** [analyzeMeal] up to [await requestPromise]. *)
Definition analyzeMeal (s : State) (imageBase64 : string)
    (updateText : option string) : Returned * State :=
  let requestKey := analyze_key imageBase64 updateText in
  match requestQueue s !! requestKey with
  | Some p => (Shared p, s)
  | None =>
      let p := started s in
      (Started p,
       {| requestQueue := <[requestKey := p]> (requestQueue s);
          started := S p; timers := timers s |})
  end.

(** [analyzeMeal] after [await requestPromise]: [response.data] or the
    error is handed on, and the [finally] block sets the timer. *)
Definition analyzeMeal_resume (s : State) (requestKey : string)
    (o : Outcome) (now : Z) : (JSValue + Error) * State :=
  (match o with
   | inl response => inl (response_data response)
   | inr error => inr error
   end,
   {| requestQueue := requestQueue s; started := started s;
      timers := timers s ++ [(now + 1000, requestKey)] |}).

Definition timer_fires (s : State) (i : nat) (now : Z) : option State :=
  t ← timers s !! i;
  if fst t <=? now then
    Some {| requestQueue := delete (snd t) (requestQueue s);
            started := started s; timers := delete i (timers s) |}
  else None.

End Client.

(** ** Concrete runs *)

Module Scenario.

(** Parsers that reject everything, a random source stuck at 0. *)
Definition no_parse {A : Type} : string → option A := λ _, None.
Definition zero_random : nat → Q := λ _, 0%Q.
Definition half_random : nat → Q := λ _, (1 # 2)%Q.

Import OpenAIService.

Definition analyze (s : State) (now : Z) : Returned * State :=
  analyzeMealImage zero_random true s "aGVsbG8=" "english" None [] now.

Definition key : string := analyze_key "aGVsbG8=" "english" None.

Definition settle (s : State) (p : nat) (up : Upstream) : State :=
  upstream_settles (@no_parse string) (@no_parse JSValue) zero_random s p up.

Definition resume (s : State) (p : nat) (now : Z) : State :=
  from_option snd s (analyzeMealImage_resume s p key now).

Definition fire (s : State) (i : nat) (now : Z) : State :=
  default s (timer_fires s i now).

(** Two calls for one image with [clearCaches] between them, the first of
    which then completes: its result is cached while the promise of the
    second is registered and pending. *)
Definition cached_beside_pending : State :=
  let s1 := (analyze init 0).2 in
  let s2 := clearCaches s1 in
  let s3 := (analyze s2 10).2 in
  let s4 := settle s3 0 (Responded None) in
  resume s4 0 20.

(** A call has completed and its result is cached at time 5. *)
Definition cached_at_5 : State :=
  let s1 := (analyze init 0).2 in
  let s2 := settle s1 0 (Responded None) in
  resume s2 0 5.

(** A call completes, its timer runs, the entry expires and a new call is
    under way. *)
Definition expired_beside_pending : State :=
  let s1 := (analyze init 0).2 in
  let s2 := settle s1 0 (Responded None) in
  let s3 := resume s2 0 5 in
  let s4 := fire s3 0 1005 in
  (analyze s4 600005).2.

(** A full cache: a hundred one-letter keys in insertion order. *)
Definition full_cache : Cache :=
  map (λ n, (String (ascii_of_nat (32 + n)) EmptyString,
             {| data := JObj []; timestamp := Z.of_nat n |}))
      (seq 0 MAX_CACHE_SIZE).

Import Client.

Definition ok_response : Response :=
  {| response_status := 200; response_data := JObj [] |}.

Definition http_error (code : Z) : Error :=
  {| status := Some code; name := "AxiosError"; detail := EmptyString |}.

Definition abort_error : Error :=
  {| status := None; name := "AbortError"; detail := "canceled" |}.

Definition web_device : Device :=
  {| platform := Web; localStorage := {["auth_token" := "tok"]};
     secureStore := ∅; secureStore_throws := false; asyncStorage := ∅;
     location := Some "/home" |}.

(** A phone on which [SecureStore] is unusable, so that the token lives in
    [AsyncStorage], where the request interceptor looks for it. *)
Definition phone_without_secure_store : Device :=
  {| platform := Native; localStorage := ∅; secureStore := ∅;
     secureStore_throws := true;
     asyncStorage := {["auth_token" := "tok"]}; location := None |}.

Definition world (d : Device) (script : list Outcome) : World :=
  {| device := d; upcoming := script; sent := [] |}.

(** The client after a first call of [analyzeMeal] for the image. *)
Definition client_registered : Client.State :=
  (analyzeMeal Client.init "aGVsbG8=" None).2.

End Scenario.

(** ** Further parts of the two files *)

Module Keys.

(** The [type] arguments [createRequestKey] is called with. *)
Definition request_types : list string :=
  ["analyze"; "update"; "text"; "mealplan"].

End Keys.

(** ** The client: [AuthAPI] and [ChatAPI] *)

Module Interceptors.

Import Client.

(** A request that did not end with the status 401. *)
Definition not_401 (o : Outcome) : Prop :=
  ∀ error, o = inr error → status error ≠ Some 401.

End Interceptors.

Module AuthAPI.

Import Client.

Definition CACHE_DURATION : Z := 5 * 60 * 1000.

(** The static fields [tokenCache] and [tokenCacheTime]. *)
Record State : Type := mkState {
  tokenCache : JSValue;
  tokenCacheTime : Z;
}.

Definition init : State := {| tokenCache := JNull; tokenCacheTime := 0 |}.

(** What a method throws: the rejection of its request, or the TypeError
    of reading a property of a response body that is [null] or
    [undefined]. *)
Inductive Thrown : Type :=
| Rejected (error : Error)
| TypeError.

(** [signIn]: the request goes through [retryRequest]; [now] is the clock
    when the response has arrived. *)
Definition signIn (a : State) (w : World) (now : Z)
  : (Response + Thrown) * State * World :=
  let '(o, w', _) := retryRequest api_request w 1 in
  match o with
  | inr error => (inr (Rejected error), a, w')
  | inl response =>
      match Get (response_data response) "token" with
      | None => (inr TypeError, a, w')
      | Some token =>
          (inl response,
           if ToBoolean token
           then {| tokenCache := token; tokenCacheTime := now |}
           else a,
           w')
      end
  end.

(** [signOut]: one request, not retried, whose failure is only logged;
    then the [finally] block. *)
Definition signOut (a : State) (w : World) : State * World :=
  let '(_, w') := api_request w in
  ({| tokenCache := JNull; tokenCacheTime := 0 |},
   {| device := signOut_clear (device w'); upcoming := upcoming w';
      sent := sent w' |}).

(** [getStoredToken]: the cached token while it is fresh, otherwise the
    token of the store, read as the request interceptor reads it and cached
    when truthy. *)
Definition getStoredToken (a : State) (d : Device) (now : Z)
  : JSValue * State :=
  if ToBoolean (tokenCache a) && (now - tokenCacheTime a <? CACHE_DURATION)
  then (tokenCache a, a)
  else match request_token d with
       | Some token =>
           (JStr token,
            if ToBoolean (JStr token)
            then {| tokenCache := JStr token; tokenCacheTime := now |}
            else a)
       | None => (JNull, a)
       end.

End AuthAPI.

Module ChatAPI.

Import Client OpenAIService.

Definition CACHE_DURATION : Z := 2 * 60 * 1000.

(** [messageCache] is a [Map] from keys to [{ response, timestamp }]; the
    entries are carried by [CacheEntry], [response] in the field [data]. *)
Definition cache_key (message language : string) : string :=
  message +:+ "_" +:+ language.

Inductive Begun : Type :=
| FromCache (response : JSValue)
| Requested (cacheKey : string).

(** [sendMessage] up to the request. *)
Definition sendMessage (messageCache : Cache) (message language : string)
    (now : Z) : Begun :=
  let cacheKey := cache_key message language in
  match Map_get messageCache cacheKey with
  | Some cached =>
      if now - timestamp cached <? CACHE_DURATION
      then FromCache (data cached)
      else Requested cacheKey
  | None => Requested cacheKey
  end.

(** [sendMessage] once [retryRequest] has settled as [o]. *)
Definition sendMessage_resume (messageCache : Cache) (cacheKey : string)
    (o : Outcome) (now : Z) : (JSValue + AuthAPI.Thrown) * Cache :=
  match o with
  | inr error => (inr (AuthAPI.Rejected error), messageCache)
  | inl response =>
      match Get (response_data response) "success" with
      | None => (inr AuthAPI.TypeError, messageCache)
      | Some success =>
          (inl (response_data response),
           if ToBoolean success then
             let c := Map_set messageCache cacheKey
                        {| data := response_data response; timestamp := now |} in
             if (50 <? length c)%nat
             then match Map_first_key c with
                  | Some oldestKey => Map_delete c oldestKey
                  | None => c
                  end
             else c
           else messageCache)
      end
  end.

(** [clearHistory] once [retryRequest] has settled as [o]. *)
Definition clearHistory (messageCache : Cache) (o : Outcome)
  : Outcome * Cache :=
  match o with
  | inl response => (inl response, [])
  | inr error => (inr error, messageCache)
  end.

End ChatAPI.

(** ** [OpenAIService.generateFallbackMealPlan] *)

Module MealPlan.

#[local] Notation "'let*' x ':=' m 'in' k" := (OpenAIService.bind m (λ x, k))
  (at level 10, x name, m at level 100, k at level 200, only parsing).

(** The fields of [MealPlanRequest] that [generateFallbackMealPlan] reads. *)
Record MealPlanRequest : Type := mkRequest {
  target_calories_daily : number;
  target_protein_daily : number;
  target_carbs_daily : number;
  target_fats_daily : number;
  meals_per_day : number;
  rotation_frequency_days : number;
}.

Record Ingredient : Type := mkIngredient {
  ingredient_name : string;
  quantity : Q;
  unit : string;
  category : string;
}.

Record Instruction : Type := mkInstruction {
  step : nat;
  text : string;
}.

Record Meal : Type := mkMeal {
  name : string;
  description : string;
  meal_timing : string;
  dietary_category : string;
  prep_time_minutes : Q;
  difficulty_level : Q;
  calories : number;
  protein_g : number;
  carbs_g : number;
  fats_g : number;
  fiber_g : Q;
  sugar_g : Q;
  sodium_mg : Q;
  ingredients : list Ingredient;
  instructions : list Instruction;
  allergens : list string;
  image_url : string;
  portion_multiplier : Q;
  is_optional : bool;
}.

Record Day : Type := mkDay {
  day : string;
  day_index : nat;
  meals : list Meal;
}.

Record Summary : Type := mkSummary {
  avg_daily_calories : number;
  avg_daily_protein : number;
  avg_daily_carbs : number;
  avg_daily_fats : number;
  goal_adherence_percentage : Q;
}.

Record MealPlanResponse : Type := mkResponse {
  weekly_plan : list Day;
  weekly_nutrition_summary : Summary;
  shopping_tips : list string;
  meal_prep_suggestions : list string;
}.

(** [a / b].  A zero divisor is taken as [+0]: the sign of a zero is not
    represented.  [generateFallbackMealPlan] divides by [meals_per_day]
    only, and a plan for zero meals a day has no meal to carry the
    quotient. *)
Definition div (a b : number) : number :=
  match a, b with
  | NaN, _ | _, NaN => NaN
  | Fin x, Fin y =>
      if Qeq_bool y 0 then
        if Qeq_bool x 0 then NaN
        else if Qle_bool 0 x then PosInf else NegInf
      else Fin (x / y)
  | Fin _, _ => Fin 0
  | PosInf, Fin y => if Qle_bool 0 y then PosInf else NegInf
  | NegInf, Fin y => if Qle_bool 0 y then NegInf else PosInf
  | _, _ => NaN
  end.

(** [Math.round] on numbers. *)
Definition Math_round (a : number) : number :=
  match a with
  | Fin q => Fin (roundQ q)
  | _ => a
  end.

(** [ToIntegerOrInfinity] of a finite number: truncation towards zero. *)
Definition truncate (q : Q) : Z :=
  if Qle_bool 0 q then Qfloor q else Qceiling q.

(** [l.slice(0, end)]: a negative [end] counts from the end of [l]. *)
Definition slice0 {A : Type} (l : list A) (end_ : number) : list A :=
  let len := Z.of_nat (length l) in
  let final :=
    match end_ with
    | NaN | NegInf => 0
    | PosInf => len
    | Fin q =>
        let relativeEnd := truncate q in
        if relativeEnd <? 0 then Z.max (len + relativeEnd) 0
        else Z.min relativeEnd len
    end in
  take (Z.to_nat final) l.

(** [String.prototype.toLowerCase] on code units below 256. *)
Definition lower (c : ascii) : ascii :=
  let n := nat_of_ascii c in
  if ((65 <=? n) && (n <=? 90))%nat
     || ((192 <=? n) && (n <=? 222) && negb (n =? 215))%nat
  then ascii_of_nat (n + 32)
  else c.

Fixpoint toLowerCase (s : string) : string :=
  match s with
  | EmptyString => EmptyString
  | String c s' => String (lower c) (toLowerCase s')
  end.

(** [l.map((item, index) => f(item, index))] for an [f] that draws random
    numbers: the items are visited in order, [index] counting from the
    given one. *)
Fixpoint map_indexed {A B : Type} (f : A → nat → OpenAIService.Rand B)
    (l : list A) (index : nat) : OpenAIService.Rand (list B) :=
  match l with
  | [] => OpenAIService.ret []
  | a :: l' =>
      let* b := f a index in
      let* bs := map_indexed f l' (S index) in
      OpenAIService.ret (b :: bs)
  end.

Definition days : list string :=
  ["Monday"; "Tuesday"; "Wednesday"; "Thursday"; "Friday"; "Saturday";
   "Sunday"].

Definition mealTimings : list string := ["BREAKFAST"; "LUNCH"; "DINNER"].

Section Fallback.

Variable Math_random : nat → Q.

#[local] Abbreviation random := (OpenAIService.random Math_random).

Variable request : MealPlanRequest.

Definition caloriesPerMeal : number :=
  Math_round (div (target_calories_daily request) (meals_per_day request)).
Definition proteinPerMeal : number :=
  Math_round (div (target_protein_daily request) (meals_per_day request)).
Definition carbsPerMeal : number :=
  Math_round (div (target_carbs_daily request) (meals_per_day request)).
Definition fatsPerMeal : number :=
  Math_round (div (target_fats_daily request) (meals_per_day request)).

(** The object built for one meal; its five random properties are
    evaluated in the order of the literal. *)
Definition fallback_meal (dayIndex : nat) (timing : string)
    (mealIndex : nat) : OpenAIService.Rand Meal :=
  let* r1 := random in
  let* r2 := random in
  let* r3 := random in
  let* r4 := random in
  let* r5 := random in
  OpenAIService.ret
    {| name := toLowerCase timing +:+ " meal " +:+ pretty (dayIndex + 1)%nat;
       description :=
         "Balanced " +:+ toLowerCase timing +:+ " for day " +:+
         pretty (dayIndex + 1)%nat;
       meal_timing := timing;
       dietary_category := "BALANCED";
       prep_time_minutes := (20 + floorQ (r1 * 20))%Q;
       difficulty_level := (1 + floorQ (r2 * 3))%Q;
       calories := caloriesPerMeal;
       protein_g := proteinPerMeal;
       carbs_g := carbsPerMeal;
       fats_g := fatsPerMeal;
       fiber_g := (5 + floorQ (r3 * 5))%Q;
       sugar_g := (5 + floorQ (r4 * 10))%Q;
       sodium_mg := (300 + floorQ (r5 * 400))%Q;
       ingredients :=
         [{| ingredient_name := "Main ingredient"; quantity := 100%Q;
             unit := "g"; category := "Protein" |}];
       instructions :=
         [{| step := 1; text := "Prepare ingredients" |};
          {| step := 2; text := "Cook according to preference" |}];
       allergens := [];
       image_url := EmptyString;
       portion_multiplier := 1%Q;
       is_optional := false |}.

Definition fallback_day (day : string) (dayIndex : nat)
  : OpenAIService.Rand Day :=
  let* meals :=
    map_indexed (fallback_meal dayIndex)
      (slice0 mealTimings (meals_per_day request)) 0 in
  OpenAIService.ret {| day := day; day_index := dayIndex; meals := meals |}.

Definition generateFallbackMealPlan : OpenAIService.Rand MealPlanResponse :=
  let* weekly_plan :=
    map_indexed fallback_day
      (slice0 days (rotation_frequency_days request)) 0 in
  OpenAIService.ret
    {| weekly_plan := weekly_plan;
       weekly_nutrition_summary :=
         {| avg_daily_calories := target_calories_daily request;
            avg_daily_protein := target_protein_daily request;
            avg_daily_carbs := target_carbs_daily request;
            avg_daily_fats := target_fats_daily request;
            goal_adherence_percentage := 85%Q |};
       shopping_tips :=
         ["Plan your shopping in advance"; "Buy fresh ingredients"];
       meal_prep_suggestions :=
         ["Prepare ingredients on Sunday"; "Cook in batches"] |}.

End Fallback.

End MealPlan.

(** ** More concrete inputs *)

Module Examples.

Import Scenario.

(** An update text long enough to fill, with the image, the 100 characters
    of a request key. *)
Definition long_text : string :=
  "please count the rice as two full cups and the chicken as grilled without any oil or butter at all".

(** A result cached at time 0 for the image, [long_text] and English. *)
Definition cached_long : OpenAIService.State :=
  OpenAIService.with_cache OpenAIService.init
    (OpenAIService.setCachedResponse []
       (OpenAIService.analyze_key "aGVsbG8=" "english" (Some long_text))
       (JObj [("calories"%string, OpenAIService.JQ 450)]) 0).

(** The service while its first analysis is under way. *)
Definition analysing : OpenAIService.State := (analyze OpenAIService.init 0).2.

Definition server_error : OpenAIService.Error :=
  OpenAIService.new_Error "503 service unavailable".

Definition token_response : Client.Response :=
  {| Client.response_status := 200;
     Client.response_data := JObj [("token"%string, JStr "abc")] |}.

Definition chat_response : Client.Response :=
  {| Client.response_status := 200;
     Client.response_data :=
       JObj [("success"%string, JBool true); ("response"%string, JStr "hello")] |}.

(** A request for a week of five meals a day, and one whose counts are
    negative. *)
Definition five_meals : MealPlan.MealPlanRequest :=
  {| MealPlan.target_calories_daily := Fin (inject_Z 2000);
     MealPlan.target_protein_daily := Fin (inject_Z 150);
     MealPlan.target_carbs_daily := Fin (inject_Z 250);
     MealPlan.target_fats_daily := Fin (inject_Z 67);
     MealPlan.meals_per_day := Fin (inject_Z 5);
     MealPlan.rotation_frequency_days := Fin (inject_Z 14) |}.

Definition negative_counts : MealPlan.MealPlanRequest :=
  {| MealPlan.target_calories_daily := Fin (inject_Z 2000);
     MealPlan.target_protein_daily := Fin (inject_Z 150);
     MealPlan.target_carbs_daily := Fin (inject_Z 250);
     MealPlan.target_fats_daily := Fin (inject_Z 67);
     MealPlan.meals_per_day := Fin (inject_Z (- 1));
     MealPlan.rotation_frequency_days := Fin (inject_Z (- 2)) |}.

End Examples.

(** * Properties *)

(** ** The normalizer and the fallback generator *)

Section Normalizer.

Import OpenAIService.

Variable extractCleanJSON : string → option string.
Variable parsePartialJSON : string → option JSValue.
Variable Math_random : nat → Q.

#[local] Abbreviation parseAnalysisResponse :=
  (OpenAIService.parseAnalysisResponse extractCleanJSON parsePartialJSON Math_random).
#[local] Abbreviation generateEnhancedFallbackAnalysis :=
  (OpenAIService.generateEnhancedFallbackAnalysis Math_random).

Lemma number_or_zero parsed k v :
  number_or parsed k (JQ 0) = Some v → is_number v.
Proof.
  unfold number_or, Number_of. intros H.
  apply bind_Some in H as (n & _ & H). injection H as <-.
  unfold or_else. destruct (ToBoolean (JNum n)) eqn:E.
  - exists n. split; [done|]. intros ->. discriminate.
  - exists (Fin 0). split; done.
Qed.

Lemma clamp_range x :
  x ≠ NaN →
  ∃ q, Math_min (Fin 100) (Math_max (Fin 1) x) = Fin q ∧ (1 <= q <= 100)%Q.
Proof.
  intros Hx. destruct x as [| | |q]; [done| | |].
  - exists 100%Q. split; [reflexivity|]. split; by apply Qle_bool_iff.
  - exists 1%Q. split; [reflexivity|]. split; by apply Qle_bool_iff.
  - unfold Math_max, ltb. destruct (Qle_bool q 1) eqn:E1; simpl.
    + exists 1%Q. split; [reflexivity|]. split; by apply Qle_bool_iff.
    + unfold Math_min, ltb. destruct (Qle_bool 100 q) eqn:E2; simpl.
      * exists 100%Q. split; [reflexivity|]. split; by apply Qle_bool_iff.
      * exists q. split; [reflexivity|].
        split; apply Qlt_le_weak, Qnot_le_lt; intros H%Qle_bool_iff; congruence.
Qed.

Lemma confidence_of_range parsed v :
  confidence_of parsed = Some v → in_confidence_range v.
Proof.
  unfold confidence_of. intros H.
  apply bind_Some in H as (n & _ & H).
  assert (∃ x, or_else (JNum n) (JQ 75) = JNum x ∧ x ≠ NaN) as (x & Ex & Hx).
  { unfold or_else. destruct (ToBoolean (JNum n)) eqn:E.
    - exists n. split; [done|]. intros ->. discriminate.
    - exists (Fin 75). done. }
  rewrite Ex in H. injection H as <-.
  destruct (clamp_range x Hx) as (q & Eq & Hq). exists q.
  split; [exact (f_equal JNum Eq)|exact Hq].
Qed.

Ltac open_binds H :=
  repeat (let x := fresh "x" in let Hx := fresh "Hx" in
          apply bind_Some in H as (x & Hx & H)).

Lemma normalize_shape parsed language r :
  normalize parsed language = Some r →
  Forall (λ k, is_number (prop r k)) required_numeric ∧
  in_confidence_range (prop r "confidence").
Proof.
  unfold normalize. intros H. open_binds H. injection H as <-.
  split.
  - repeat constructor; cbn; eauto using number_or_zero.
  - cbn. eauto using confidence_of_range.
Qed.

Lemma fallback_shape language updateText i :
  let r := fst (generateEnhancedFallbackAnalysis language updateText i) in
  Forall (λ k, is_number (prop r k)) required_numeric ∧
  prop r "confidence" = JQ 65.
Proof.
  split; [|reflexivity].
  repeat constructor; cbn; (eexists; split; [reflexivity|discriminate]).
Qed.

(** Whatever the parsers make of the content, the result carries every
    required numeric field as a defined number and a confidence between 1
    and 100. *)
Lemma parseAnalysisResponse_shape content language i :
  let r := fst (parseAnalysisResponse content language i) in
  Forall (λ k, is_number (prop r k)) required_numeric ∧
  in_confidence_range (prop r "confidence").
Proof.
  unfold OpenAIService.parseAnalysisResponse.
  destruct (try_parse _ _ content language) as [r|] eqn:E; cbv zeta.
  - unfold try_parse in E.
    apply bind_Some in E as (c & _ & E). apply bind_Some in E as (parsed & _ & E).
    exact (normalize_shape _ _ _ E).
  - destruct (fallback_shape language None i) as [H1 H2]. split; [exact H1|].
    cbv zeta in H2. rewrite H2. exists 65%Q. split; [done|]. split; by apply Qle_bool_iff.
Qed.

(** The example of the specification. *)
Lemma normalize_example :
  ∃ r, normalize (JObj [("calories", JStr "450"); ("confidence", JQ 150)])
         "english" = Some r ∧
       prop r "calories" = JQ 450 ∧ prop r "confidence" = JQ 100.
Proof. eexists. split; [reflexivity|]. split; reflexivity. Qed.

(** An absent confidence, or one that converts to [NaN], becomes 75. *)
Lemma confidence_default parsed :
  Number_of parsed "confidence" = Some NaN →
  confidence_of parsed = Some (JQ 75).
Proof. unfold confidence_of. intros ->. reflexivity. Qed.

Lemma confidence_absent props :
  own_property props "confidence" = None →
  confidence_of (JObj props) = Some (JQ 75).
Proof.
  intros H. apply confidence_default. unfold Number_of. cbn. by rewrite H.
Qed.

(** A confidence that converts to a number other than 0 and [NaN] is
    clamped. *)
Lemma confidence_clamped parsed n :
  Number_of parsed "confidence" = Some n →
  ToBoolean (JNum n) = true →
  confidence_of parsed = Some (JNum (Math_min (Fin 100) (Math_max (Fin 1) n))).
Proof.
  unfold confidence_of. intros -> H. cbn. unfold or_else. by rewrite H.
Qed.

(** C4, at the input where the code departs from it: a confidence of 0 is
    present and numeric, and clamping it into [1,100] gives 1; the
    normalizer takes the 0 for a missing value and answers 75. *)
Theorem C4_zero_confidence_becomes_75 :
  ∃ r, normalize (JObj [("confidence", JQ 0)]) "english" = Some r ∧
       prop r "confidence" = JQ 75 ∧
       Math_min (Fin 100) (Math_max (Fin 1) (Fin 0)) = Fin 1.
Proof. eexists. split; [reflexivity|]. split; reflexivity. Qed.

(** *** The fallback generator *)

Lemma fallback_calories language updateText i :
  prop (fst (generateEnhancedFallbackAnalysis language updateText i)) "calories"
  = JQ (300 + floorQ (Math_random i * 400)).
Proof. reflexivity. Qed.

Lemma base_calories_range r :
  (0 <= r)%Q → (r < 1)%Q →
  (300 <= 300 + floorQ (r * 400) <= 699)%Q.
Proof.
  intros H0 H1. unfold floorQ.
  assert (0 <= Qfloor (r * 400))%Z as Hlo.
  { change 0%Z with (Qfloor 0). apply Qfloor_resp_le. lra. }
  assert (Qfloor (r * 400) < 400)%Z as Hhi.
  { rewrite Zlt_Qlt. apply Qle_lt_trans with (r * 400)%Q; [apply Qfloor_le|].
    change (inject_Z 400) with 400%Q. lra. }
  assert (Qfloor (r * 400) <= 399)%Z as Hhi' by lia.
  rewrite Zle_Qle in Hlo, Hhi'.
  change (inject_Z 0) with 0%Q in Hlo. change (inject_Z 399) with 399%Q in Hhi'.
  lra.
Qed.

End Normalizer.

(** ** The retry wrapper *)

Section RetryWrapper.

Import Client.

Context {W : Type}.
Variable requestFn : W → Outcome * W.

#[local] Abbreviation retryRequest := (Client.retryRequest requestFn).
#[local] Abbreviation replies := (Client.replies requestFn).
#[local] Abbreviation world_after := (Client.world_after requestFn).

Lemma replies_S w n :
  replies w (S n) = fst (requestFn w) :: replies (snd (requestFn w)) n.
Proof. simpl. by destruct (requestFn w). Qed.

Lemma replies_length w n : length (replies w n) = n.
Proof.
  revert w. induction n as [|n IH]; intros w; [done|].
  rewrite replies_S. simpl. by rewrite IH.
Qed.

(** The shape of every run: [n] attempts, at least one and no more than the
    ceiling leaves, the replies of [requestFn] in order with the pauses of
    the schedule between them, and the last reply handed to the caller. *)
Lemma retryRequest_run w attempt :
  ∃ n, let '(o, w', log) := retryRequest w attempt in
    (1 ≤ n ≤ Nat.max 1 (4 - Pos.to_nat attempt))%nat ∧
    log = schedule (replies w n) attempt ∧
    last (replies w n) = Some o ∧
    w' = world_after w n ∧
    final o (Pos.to_nat attempt + n - 1).
Proof.
  funelim (retryRequest w attempt).
  1-3: exists 1%nat; rewrite replies_S; simpl;
       match goal with H : requestFn _ = _ |- _ => rewrite H end;
       simpl; (split; [lia|]); (do 3 (split; [done|])).
  - done.
  - left. unfold retryAttempts in *. lia.
  - by right.
  - rewrite Heq in Hind. destruct Hind as (m & Hm & -> & Hlast & -> & Hfin).
    exists (S m). rewrite replies_S. simpl world_after.
    match goal with H : requestFn _ = _ |- _ => rewrite H end. simpl.
    split; [unfold retryAttempts in *; lia|].
    destruct (replies w' m) as [|o1 os] eqn:E.
    { apply (f_equal length) in E. rewrite replies_length in E. simpl in E. lia. }
    split; [done|]. split; [by rewrite last_cons, Hlast|]. split; [done|].
    replace (Pos.to_nat attempt + S m - 1)%nat
      with (Pos.to_nat (attempt + 1) + m - 1)%nat by lia.
    exact Hfin.
Qed.

(** A failure that is never retried ends the run at once. *)
Lemma retryRequest_no_retry w attempt error w' :
  requestFn w = (inr error, w') →
  no_retry error = true →
  retryRequest w attempt = (inr error, w', [Attempted attempt (inr error)]).
Proof.
  intros H Hno. simp retryRequest. rewrite H. simpl.
  destruct (decide (retryAttempts ≤ attempt)%positive); simpl; [done|].
  by rewrite Hno.
Qed.

Lemma schedule_attempts os attempt :
  attempts_of (schedule os attempt) = os.
Proof.
  revert attempt. induction os as [|o [|o' os] IH]; intros attempt; [done..|].
  change (schedule (o :: o' :: os) attempt)
    with (Attempted attempt o :: Slept (backoff attempt)
            :: schedule (o' :: os) (attempt + 1)).
  simpl. f_equal. apply IH.
Qed.

Lemma schedule_pauses os attempt :
  pauses_of (schedule os attempt) =
  map (λ k, backoff (Pos.of_nat k)) (seq (Pos.to_nat attempt) (length os - 1)).
Proof.
  revert attempt. induction os as [|o [|o' os] IH]; intros attempt; [done..|].
  change (schedule (o :: o' :: os) attempt)
    with (Attempted attempt o :: Slept (backoff attempt)
            :: schedule (o' :: os) (attempt + 1)).
  change (pauses_of (Attempted attempt o :: Slept (backoff attempt)
            :: schedule (o' :: os) (attempt + 1)))
    with (backoff attempt :: pauses_of (schedule (o' :: os) (attempt + 1))).
  rewrite IH. simpl length. replace (S (S (length os)) - 1)%nat
    with (S (length os)) by lia.
  replace (S (length os) - 1)%nat with (length os) by lia.
  simpl. rewrite Pos2Nat.id. f_equal.
  replace (Pos.to_nat (attempt + 1)) with (S (Pos.to_nat attempt)) by lia.
  done.
Qed.

Lemma schedule_lookup os attempt k o :
  Attempted k o ∈ schedule os attempt ↔
  ∃ i, os !! i = Some o ∧ Pos.to_nat k = (Pos.to_nat attempt + i)%nat.
Proof.
  revert attempt. induction os as [|o1 [|o2 os] IH]; intros attempt.
  - simpl. split; [by intros ?%elem_of_nil|]. by intros (i & ? & _).
  - simpl. rewrite list_elem_of_singleton. split.
    + intros [= -> ->]. exists 0%nat. split; [done|lia].
    + intros ([|i] & Hi & Hk); simpl in Hi; [|done].
      injection Hi as ->. f_equal. lia.
  - change (schedule (o1 :: o2 :: os) attempt)
      with (Attempted attempt o1 :: Slept (backoff attempt)
              :: schedule (o2 :: os) (attempt + 1)).
    rewrite !elem_of_cons, IH. split.
    + intros [[= -> ->]|[[=]|(i & Hi & Hk)]].
      * exists 0%nat. split; [done|lia].
      * exists (S i). split; [done|lia].
    + intros ([|i] & Hi & Hk).
      * left. injection Hi as ->. f_equal. lia.
      * right. right. exists i. split; [done|lia].
Qed.

Lemma replies_lookup_last w n o :
  last (replies w n) = Some o → replies w n !! (n - 1)%nat = Some o.
Proof.
  rewrite last_lookup, replies_length. by replace (pred n) with (n - 1)%nat by lia.
Qed.

(** C3.  Started at attempt 1, [retryRequest] calls [requestFn] [n] times
    with [n] at most the ceiling 3; the pause after attempt [k] is
    [min(1000 * 2^(k-1), 5000)] milliseconds; and the caller receives the
    reply of the last attempt as it is, so that when the retries are
    exhausted the error surfaced is the last underlying one. *)
Theorem C3_retry_ceiling_backoff_last_error (w : W) :
  ∃ n, (1 ≤ n ≤ 3)%nat ∧
    let '(o, w', log) := retryRequest w 1 in
    attempts_of log = replies w n ∧
    pauses_of log =
      map (λ k, Z.min (1000 * 2 ^ (Z.of_nat k - 1)) 5000) (seq 1 (n - 1)) ∧
    log = schedule (replies w n) 1 ∧
    last (replies w n) = Some o ∧
    w' = world_after w n.
Proof.
  destruct (retryRequest_run w 1) as (n & H). exists n.
  destruct (retryRequest w 1) as [[o w'] log].
  destruct H as (Hn & -> & Hlast & -> & _).
  split; [simpl in Hn; lia|].
  split; [apply schedule_attempts|].
  split; [|done].
  rewrite schedule_pauses, replies_length.
  apply map_ext_in. intros k Hk%in_seq. unfold backoff, retryDelay, maxRetryDelay.
  do 3 f_equal. lia.
Qed.

(** The errors never retried, spelled out. *)
Lemma no_retry_false error :
  no_retry error = false ↔
  status error ≠ Some 401 ∧ status error ≠ Some 403 ∧
  status error ≠ Some 422 ∧ name error ≠ "AbortError"%string.
Proof.
  unfold no_retry. rewrite !orb_false_iff, !bool_decide_eq_false.
  rewrite String.eqb_neq. tauto.
Qed.

(** C6, amended.  An attempt below the ceiling that fails with an error
    whose status is none of 401, 403 and 422 and whose name is not
    [AbortError] is followed by another attempt; so a request that keeps
    failing in this way is tried three times. *)
Theorem C6_other_failures_are_retried (w : W) (k : positive) (error : Error) :
  Attempted k (inr error) ∈ (retryRequest w 1).2 →
  status error ≠ Some 401 → status error ≠ Some 403 →
  status error ≠ Some 422 → name error ≠ "AbortError"%string →
  (k < retryAttempts)%positive →
  ∃ o, Attempted (k + 1) o ∈ (retryRequest w 1).2.
Proof.
  intros Hin H401 H403 H422 Hname Hk.
  destruct (retryRequest_run w 1) as (n & H).
  destruct (retryRequest w 1) as [[o w'] log]. simpl in *.
  destruct H as (Hn & -> & Hlast & _ & Hfin).
  apply schedule_lookup in Hin as (i & Hi & Hki).
  assert (i < n)%nat as Hlt.
  { apply lookup_lt_Some in Hi. by rewrite replies_length in Hi. }
  assert (i ≠ n - 1)%nat as Hne.
  { intros ->. apply replies_lookup_last in Hlast. rewrite Hlast in Hi.
    injection Hi as ->. simpl in Hfin. destruct Hfin as [Hc|Hno].
    - unfold retryAttempts in *. lia.
    - assert (no_retry error = false) by by apply no_retry_false.
      congruence. }
  destruct (lookup_lt_is_Some_2 (replies w n) (S i)) as [o' Ho'].
  { rewrite replies_length. lia. }
  exists o'. apply schedule_lookup. exists (S i). split; [done|lia].
Qed.

(** A request that fails three times with such errors is tried three
    times. *)
Lemma persistent_failure_three_attempts w :
  (∀ o, o ∈ replies w 3 → ∃ error, o = inr error ∧ no_retry error = false) →
  attempts_of (retryRequest w 1).2 = replies w 3.
Proof.
  intros Hall.
  destruct (retryRequest_run w 1) as (n & H).
  destruct (retryRequest w 1) as [[o w'] log]. simpl in *.
  destruct H as (Hn & -> & Hlast & _ & Hfin).
  rewrite schedule_attempts.
  assert (n = 3%nat) as ->; [|done].
  apply replies_lookup_last in Hlast.
  assert (replies w 3 !! (n - 1)%nat = Some o) as H3.
  { clear -Hlast Hn. revert Hlast.
    assert (n = 1 ∨ n = 2 ∨ n = 3)%nat as [->|[->| ->]] by lia;
      rewrite !replies_S; simpl; done. }
  destruct (Hall o) as (error & -> & Hno).
  { by eapply list_elem_of_lookup_2. }
  simpl in Hfin. destruct Hfin as [Hc|Hc]; [|congruence].
  unfold retryAttempts in *. lia.
Qed.

(** A failure with status 401, 403 or 422 at the first attempt is the only
    attempt, and it is what the caller gets. *)
Lemma refused_once w error w' :
  requestFn w = (inr error, w') →
  status error = Some 401 ∨ status error = Some 403 ∨ status error = Some 422 →
  retryRequest w 1 = (inr error, w', [Attempted 1 (inr error)]).
Proof.
  intros H Hs. apply retryRequest_no_retry; [done|].
  unfold no_retry. destruct Hs as [->|[->| ->]]; reflexivity.
Qed.

End RetryWrapper.

(** ** Requests through the axios instance *)

Section BackendCalls.

Import Client Scenario.

(** C6 as stated fails: an error that carries no HTTP status, hence none of
    401, 403 and 422, but is named [AbortError] ends the run after one
    attempt although the second would have been answered. *)
Lemma C6_abort_error_is_not_retried :
  ¬ (∀ (w : World) error w',
       api_request w = (inr error, w') →
       status error ≠ Some 401 → status error ≠ Some 403 →
       status error ≠ Some 422 →
       (2 ≤ length (attempts_of (retryRequest api_request w 1).2))%nat).
Proof.
  intros H.
  specialize (H (world web_device [inr abort_error; inl ok_response])
                abort_error _ eq_refl).
  vm_compute in H. specialize (H ltac:(discriminate) ltac:(discriminate) ltac:(discriminate)).
  lia.
Qed.

Lemma C6_witness :
  ∃ o, Attempted 2 o ∈
    (retryRequest api_request
       (world web_device [inr (http_error 500); inl ok_response]) 1).2.
Proof.
  apply (C6_other_failures_are_retried api_request _ 1 (http_error 500)).
  - vm_compute. left.
  - discriminate.
  - discriminate.
  - discriminate.
  - discriminate.
  - reflexivity.
Defined.

(** On a 401 the interceptor empties the store the request interceptor
    reads, on the web and on a device whose [SecureStore] works. *)
Lemma unauthorized_clears_token d error :
  status error = Some 401 →
  platform d = Web ∨ secureStore_throws d = false →
  request_token (on_rejected d error) = None ∧
  (platform d = Native →
   secureStore (on_rejected d error) !! "auth_token_secure" = None ∧
   asyncStorage (on_rejected d error) !! "auth_token" = None).
Proof.
  intros Hs Hd. unfold on_rejected. rewrite Hs. simpl.
  unfold request_token, clear_auth.
  destruct d as [[] ls ss th a loc]; simpl in *.
  - split; [apply lookup_delete_eq|done].
  - destruct Hd as [Hd | ->]; [done|]. simpl.
    split; [apply lookup_delete_eq|].
    intros _. split; apply lookup_delete_eq.
Qed.

(** C5, where the code departs from it.  On a phone whose [SecureStore]
    throws, a 401 is not retried, but the token stays in [AsyncStorage]:
    the interceptor leaves its [try] block at [SecureStore.deleteItemAsync]
    and never reaches [AsyncStorage.removeItem].  The next request carries
    the same token again.  [AuthAPI.signOut] on the same device removes
    it. *)
Theorem C5_token_survives_401 :
  let w := world phone_without_secure_store [inr (http_error 401)] in
  let '(o, w', log) := retryRequest api_request w 1 in
  log = [Attempted 1 (inr (http_error 401))] ∧
  o = inr (http_error 401) ∧
  asyncStorage (device w') !! "auth_token" = Some "tok"%string ∧
  authorization (device w') = Some "Bearer tok"%string ∧
  asyncStorage (signOut_clear (device w)) !! "auth_token" = None.
Proof. vm_compute. repeat split. Qed.

End BackendCalls.

(** ** The response cache *)

Section ResponseCache.

Import OpenAIService.

Implicit Types (c : Cache) (k key : string) (e : CacheEntry).

Lemma Map_set_length c k e :
  length (Map_set c k e) =
  if Map_get c k is Some _ then length c else S (length c).
Proof.
  induction c as [|[k' e'] c IH]; simpl; [done|].
  destruct (String.eqb k' k); simpl; [done|].
  rewrite IH. by destruct (Map_get c k).
Qed.

Lemma Map_set_fresh c k e :
  Map_get c k = None → Map_set c k e = c ++ [(k, e)].
Proof.
  induction c as [|[k' e'] c IH]; simpl; [done|].
  destruct (String.eqb k' k); [done|]. intros H. by rewrite IH.
Qed.

Lemma Map_get_None c k : Map_get c k = None ↔ k ∉ c.*1.
Proof.
  induction c as [|[k' e'] c IH]; simpl.
  - split; [intros _; apply not_elem_of_nil|done].
  - rewrite not_elem_of_cons. destruct (String.eqb_spec k' k) as [->|Hne].
    + split; [done|]. by intros [? _].
    + rewrite IH. split; [intros ?; split; [congruence|done]|by intros [_ ?]].
Qed.

Lemma Map_delete_length c k : (length (Map_delete c k) ≤ length c)%nat.
Proof. apply length_filter. Qed.

Lemma Map_delete_absent c k : k ∉ c.*1 → Map_delete c k = c.
Proof.
  induction c as [|[k' e'] c IH]; [done|].
  rewrite fmap_cons, not_elem_of_cons. intros [Hne Hnot]. simpl in Hne.
  unfold Map_delete. rewrite filter_cons. simpl.
  destruct (String.eqb_spec k' k) as [->|_]; [done|]. simpl.
  f_equal. by apply IH.
Qed.

Lemma Map_delete_first k e c :
  NoDup (((k, e) :: c).*1) → Map_delete ((k, e) :: c) k = c.
Proof.
  rewrite fmap_cons, NoDup_cons. intros [Hnot _].
  unfold Map_delete. rewrite filter_cons. simpl. rewrite String.eqb_refl. simpl.
  by apply Map_delete_absent.
Qed.

Lemma Map_delete_first_length k e c :
  (length (Map_delete ((k, e) :: c) k) ≤ length c)%nat.
Proof.
  unfold Map_delete. rewrite filter_cons. simpl. rewrite String.eqb_refl. simpl.
  apply length_filter.
Qed.

(** Keys stay distinct: the list is a [Map]. *)
Lemma Map_set_keys c k e :
  (Map_set c k e).*1 = if Map_get c k is Some _ then c.*1 else c.*1 ++ [k].
Proof.
  induction c as [|[k' e'] c IH]; [done|]. cbn [Map_set Map_get].
  destruct (String.eqb k' k); [done|].
  rewrite !fmap_cons, IH. by destruct (Map_get c k).
Qed.

Lemma Map_set_NoDup c k e : NoDup c.*1 → NoDup (Map_set c k e).*1.
Proof.
  intros H. rewrite Map_set_keys. destruct (Map_get c k) eqn:E; [done|].
  apply NoDup_app. split; [done|]. split; [|apply NoDup_singleton].
  intros x Hx ->%list_elem_of_singleton. by apply Map_get_None in E.
Qed.

Lemma Map_delete_keys c k : (Map_delete c k).*1 = filter (λ k', k' ≠ k) c.*1.
Proof.
  unfold Map_delete. induction c as [|[k' e'] c IH]; [done|].
  rewrite fmap_cons, !filter_cons. simpl.
  destruct (String.eqb_spec k' k) as [->|Hne]; simpl.
  - by rewrite decide_False by naive_solver.
  - rewrite decide_True by done. f_equal. exact IH.
Qed.

Lemma Map_delete_NoDup c k : NoDup c.*1 → NoDup (Map_delete c k).*1.
Proof. intros H. rewrite Map_delete_keys. by apply NoDup_filter. Qed.

Lemma setCachedResponse_NoDup c key d now :
  NoDup c.*1 → NoDup (setCachedResponse c key d now).*1.
Proof.
  intros H. unfold setCachedResponse. apply Map_set_NoDup.
  destruct (MAX_CACHE_SIZE <=? length c)%nat; [|done].
  destruct (Map_first_key c); [|done]. by apply Map_delete_NoDup.
Qed.

(** Every write leaves the cache within its bound. *)
Lemma setCachedResponse_bounded c key d now :
  (length c ≤ MAX_CACHE_SIZE)%nat →
  (length (setCachedResponse c key d now) ≤ MAX_CACHE_SIZE)%nat.
Proof.
  intros H. unfold setCachedResponse.
  destruct (Nat.leb_spec MAX_CACHE_SIZE (length c)) as [Hfull|Hroom].
  - destruct c as [|[k0 e0] c]; [simpl in Hfull; unfold MAX_CACHE_SIZE in *; lia|].
    change (Map_first_key ((k0, e0) :: c)) with (Some k0). cbv iota beta.
    pose proof (Map_delete_first_length k0 e0 c) as Hdel.
    rewrite Map_set_length. simpl in H. unfold MAX_CACHE_SIZE in *.
    destruct (Map_get _ key); lia.
  - rewrite Map_set_length. unfold MAX_CACHE_SIZE in *.
    destruct (Map_get _ key); lia.
Qed.

(** C8.  When the cache holds exactly [MAX_CACHE_SIZE] entries and the key
    is new, [setCachedResponse] removes the entry at the head of the
    insertion order, keeps every other entry in place and appends the new
    one: exactly the oldest-inserted key is evicted. *)
Theorem C8_insert_at_capacity_evicts_oldest c key d now :
  NoDup c.*1 →
  length c = MAX_CACHE_SIZE →
  Map_get c key = None →
  ∃ oldestKey oldest rest,
    c = (oldestKey, oldest) :: rest ∧
    setCachedResponse c key d now
    = rest ++ [(key, {| data := d; timestamp := now |})] ∧
    Map_get (setCachedResponse c key d now) oldestKey = None ∧
    length (setCachedResponse c key d now) = MAX_CACHE_SIZE.
Proof.
  intros Hdup Hlen Hnew.
  destruct c as [|[k0 e0] rest]; [discriminate|].
  exists k0, e0, rest. split; [done|].
  assert (setCachedResponse ((k0, e0) :: rest) key d now
          = rest ++ [(key, {| data := d; timestamp := now |})]) as ->.
  { unfold setCachedResponse. rewrite Hlen, Nat.leb_refl.
    change (Map_first_key ((k0, e0) :: rest)) with (Some k0). cbv iota beta.
    rewrite Map_delete_first by done.
    apply Map_set_fresh. simpl in Hnew.
    by destruct (String.eqb k0 key). }
  split; [done|]. split.
  - apply Map_get_None. rewrite fmap_app, not_elem_of_app.
    rewrite fmap_cons, NoDup_cons in Hdup. destruct Hdup as [Hk0 _].
    split; [done|]. simpl. rewrite list_elem_of_singleton.
    intros ->. simpl in Hnew. by rewrite String.eqb_refl in Hnew.
  - rewrite length_app. simpl in *. lia.
Qed.

Lemma Map_get_set c k e k' :
  Map_get (Map_set c k e) k' = if decide (k = k') then Some e else Map_get c k'.
Proof.
  induction c as [|[k0 e0] c IH]; simpl.
  - destruct (String.eqb_spec k k'); by case_decide.
  - destruct (String.eqb_spec k0 k) as [->|Hne]; simpl.
    + destruct (String.eqb_spec k k'); by case_decide.
    + rewrite IH. destruct (String.eqb_spec k0 k') as [->|]; [|done].
      by rewrite decide_False by naive_solver.
Qed.

Lemma Map_get_delete c k k' :
  Map_get (Map_delete c k) k' = if decide (k = k') then None else Map_get c k'.
Proof.
  unfold Map_delete. induction c as [|[k0 e0] c IH]; simpl.
  - by case_decide.
  - rewrite filter_cons. simpl.
    destruct (String.eqb_spec k0 k) as [->|Hne]; simpl.
    + rewrite IH. case_decide as E; [done|].
      by destruct (String.eqb_spec k k').
    + rewrite IH. destruct (String.eqb_spec k0 k') as [->|]; [|done].
      by rewrite decide_False by naive_solver.
Qed.

(** What a write leaves in the cache: the new entry and old ones. *)
Lemma Map_get_setCachedResponse c key d now k' e :
  Map_get (setCachedResponse c key d now) k' = Some e →
  (k' = key ∧ e = {| data := d; timestamp := now |}) ∨ Map_get c k' = Some e.
Proof.
  unfold setCachedResponse. rewrite Map_get_set. case_decide as E.
  - intros [= <-]. by left.
  - intros H. right.
    destruct (MAX_CACHE_SIZE <=? length c)%nat; [|done].
    destruct (Map_first_key c); [|done].
    rewrite Map_get_delete in H. by case_decide.
Qed.

Lemma Map_get_setCachedResponse_new c key d now :
  Map_get (setCachedResponse c key d now) key
  = Some {| data := d; timestamp := now |}.
Proof.
  unfold setCachedResponse. rewrite Map_get_set. by rewrite decide_True.
Qed.

End ResponseCache.

(** ** The service as a whole *)

Section ServiceProperties.

Import OpenAIService.

Variable extractCleanJSON : string → option string.
Variable parsePartialJSON : string → option JSValue.
Variable Math_random : nat → Q.
Variable openai : bool.

#[local] Abbreviation analyzeMealImage :=
  (OpenAIService.analyzeMealImage Math_random openai).
#[local] Abbreviation step :=
  (OpenAIService.step extractCleanJSON parsePartialJSON Math_random openai).
#[local] Abbreviation reachable :=
  (OpenAIService.reachable extractCleanJSON parsePartialJSON Math_random openai).
#[local] Abbreviation operation :=
  (OpenAIService.operation extractCleanJSON parsePartialJSON Math_random openai).
#[local] Abbreviation _performMealAnalysis :=
  (OpenAIService._performMealAnalysis extractCleanJSON parsePartialJSON Math_random).
#[local] Abbreviation parseAnalysisResponse :=
  (OpenAIService.parseAnalysisResponse extractCleanJSON parsePartialJSON Math_random).
#[local] Abbreviation generateEnhancedFallbackAnalysis :=
  (OpenAIService.generateEnhancedFallbackAnalysis Math_random).

(** *** How each segment changes the cache *)

Lemma sample_cache {A} (m : Rand A) s :
  requestCache (sample m s).2 = requestCache s.
Proof. unfold sample. by destruct (m (draws s)). Qed.

Lemma analyzeMealImage_cache s imageBase64 language updateText edited now :
  requestCache (analyzeMealImage s imageBase64 language updateText edited now).2
  = requestCache s.
Proof.
  unfold OpenAIService.analyzeMealImage.
  destruct (ToBoolean _); [done|]. destruct (requestQueue s !! _); [done|].
  destruct openai; [done|].
  pose proof (sample_cache (generateEnhancedFallbackAnalysis language updateText) s) as H.
  destruct (sample _ s) as [r s']. simpl in *. done.
Qed.

Lemma upstream_settles_cache s p up :
  requestCache (upstream_settles extractCleanJSON parsePartialJSON Math_random s p up)
  = requestCache s.
Proof.
  unfold upstream_settles. destruct (inflight s !! p) as [call|]; [|done].
  pose proof (sample_cache
    (_performMealAnalysis up (call_language call) (call_updateText call)) s) as H.
  destruct (sample _ s) as [r s']. simpl in *. done.
Qed.

(** Every segment writes to the cache through [setCachedResponse], empties
    it, or leaves it alone. *)
Lemma step_cache s s' :
  step s s' →
  requestCache s' = requestCache s ∨
  requestCache s' = [] ∨
  ∃ key d now,
    requestCache s' = setCachedResponse (requestCache s) key d now.
Proof.
  destruct 1 as [s i l u ed now|s p up|s p key now o s' Hin Hres|s i now s' Hfire
    |s orig u l now|s up u l now|s prompt now|s up prompt now|s up fp now|s n|s].
  - left. apply analyzeMealImage_cache.
  - left. apply upstream_settles_cache.
  - unfold analyzeMealImage_resume in Hres.
    apply bind_Some in Hres as (out & _ & [= <- <-]). simpl.
    destruct out; [right; right; eauto|by left].
  - unfold timer_fires in Hfire. apply bind_Some in Hfire as (t & _ & Hfire).
    destruct (t.1 <=? now); [|done]. injection Hfire as <-. by left.
  - left. unfold updateMealAnalysis.
    destruct (ToBoolean _); [done|]. destruct (negb openai); [|done].
    pose proof (sample_cache (generateEnhancedFallbackAnalysis l (Some u)) s) as H.
    destruct (sample _ s) as [r s']. done.
  - unfold updateMealAnalysis_resume. destruct up as [content|e].
    + destruct (no_content content).
      * left. apply sample_cache.
      * pose proof (sample_cache (parseAnalysisResponse (default EmptyString content) l) s) as H.
        destruct (sample _ s) as [r s1]. simpl in *. right; right.
        rewrite H. eauto.
    + left. apply sample_cache.
  - left. unfold generateText.
    destruct (ToBoolean _); [done|]. by destruct (negb openai).
  - unfold generateText_resume. destruct up; simpl; [right; right; eauto|by left].
  - unfold generateMealPlan_resume. destruct up as [content|e]; [|by left].
    destruct (no_content content); [by left|].
    destruct (parseMealPlanResponse _ _ _); simpl; [right; right; eauto|by left].
  - by left.
  - right. by left.
Qed.

Lemma step_bounded s s' : step s s' → bounded s → bounded s'.
Proof.
  unfold bounded. intros [->|[->|(key & d & now & ->)]]%step_cache H.
  - done.
  - simpl. unfold MAX_CACHE_SIZE. lia.
  - by apply setCachedResponse_bounded.
Qed.

Lemma rtc_bounded s s' : rtc step s s' → bounded s → bounded s'.
Proof. induction 1; eauto using step_bounded. Qed.

(** C10.  Whatever operations run, in whatever order and however the
    segments of concurrent calls interleave, a cache of at most
    [MAX_CACHE_SIZE] entries stays one: every write goes through
    [setCachedResponse], which evicts before it inserts into a full
    cache. *)
Theorem C10_cache_stays_within_capacity s s' :
  rtc operation s s' → bounded s → bounded s'.
Proof.
  intros Hrtc. induction Hrtc as [|s s1 s' Hop _ IH]; [done|].
  intros H. apply IH. unfold bounded in *.
  destruct Hop as [Hstep|[->|(key & d & now & ->)]].
  - destruct (step_cache _ _ Hstep) as [->|[->|(key & d & now & ->)]].
    + done.
    + simpl. unfold MAX_CACHE_SIZE. lia.
    + by apply setCachedResponse_bounded.
  - done.
  - by apply setCachedResponse_bounded.
Qed.

Lemma reachable_bounded s : reachable s → bounded s.
Proof.
  intros H. eapply rtc_bounded; [exact H|]. unfold bounded. simpl. lia.
Qed.

(** The keys of the cache stay distinct. *)
Lemma step_NoDup s s' :
  step s s' → NoDup (requestCache s).*1 → NoDup (requestCache s').*1.
Proof.
  intros [->|[->|(key & d & now & ->)]]%step_cache H.
  - done.
  - constructor.
  - by apply setCachedResponse_NoDup.
Qed.

Lemma reachable_NoDup s : reachable s → NoDup (requestCache s).*1.
Proof.
  intros H. assert (NoDup (requestCache init).*1) as H0 by constructor.
  revert H0. induction H; eauto using step_NoDup.
Qed.

(** *** Analysis results are truthy *)

Lemma fallback_truthy language updateText i :
  ToBoolean (generateEnhancedFallbackAnalysis language updateText i).1 = true.
Proof. reflexivity. Qed.

Lemma normalize_truthy parsed language r :
  normalize parsed language = Some r → ToBoolean r = true.
Proof.
  unfold normalize. intros H.
  repeat (let x := fresh "x" in let Hx := fresh "Hx" in
          apply bind_Some in H as (x & Hx & H)).
  by injection H as <-.
Qed.

Lemma parseAnalysisResponse_truthy content language i :
  ToBoolean (parseAnalysisResponse content language i).1 = true.
Proof.
  unfold OpenAIService.parseAnalysisResponse.
  destruct (try_parse _ _ content language) as [r|] eqn:E; [|reflexivity].
  unfold try_parse in E.
  apply bind_Some in E as (c & _ & E). apply bind_Some in E as (parsed & _ & E).
  exact (normalize_truthy _ _ _ E).
Qed.

Lemma analysis_catch_truthy error language updateText i r :
  (analysis_catch Math_random error language updateText i).1 = inl r →
  ToBoolean r = true.
Proof.
  unfold analysis_catch.
  repeat (case_match; [by intros [=]|]).
  unfold bind, ret.
  pose proof (fallback_truthy language updateText i) as Hr.
  destruct (generateEnhancedFallbackAnalysis _ _ i) as [r' j]. simpl in *.
  by intros [= <-].
Qed.

Lemma _performMealAnalysis_truthy up language updateText i r :
  (_performMealAnalysis up language updateText i).1 = inl r →
  ToBoolean r = true.
Proof.
  unfold OpenAIService._performMealAnalysis.
  destruct up as [content|error]; [|apply analysis_catch_truthy].
  destruct (no_content content); [apply analysis_catch_truthy|].
  unfold bind, ret.
  pose proof (parseAnalysisResponse_truthy (default EmptyString content) language i) as H.
  destruct (parseAnalysisResponse _ _ i) as [r' j]. simpl in *.
  by intros [= <-].
Qed.

Lemma sample_with_draws {A} (m : Rand A) s :
  sample m s = ((m (draws s)).1, with_draws s (m (draws s)).2).
Proof. unfold sample. by destruct (m (draws s)). Qed.

Lemma step_results_truthy s s' :
  step s s' → results_truthy s → results_truthy s'.
Proof.
  intros Hstep [Hc Hs].
  destruct Hstep as [s i l u ed now|s p up|s p key now o s' Hin Hres|s i now s' Hfire
    |s orig u l now|s up u l now|s prompt now|s up prompt now|s up fp now|s n|s].
  - unfold OpenAIService.analyzeMealImage.
    destruct (ToBoolean _); [done|]. destruct (requestQueue s !! _); [done|].
    destruct openai; [done|].
    rewrite sample_with_draws. split; [exact Hc|]. simpl. intros p r.
    rewrite lookup_insert. case_decide; [|apply Hs].
    intros [= <-]. apply fallback_truthy.
  - unfold upstream_settles. destruct (inflight s !! p) as [call|]; [|done].
    rewrite sample_with_draws. split; [exact Hc|]. simpl. intros p' r.
    rewrite lookup_insert. case_decide; [|apply Hs].
    intros [= E]. by apply _performMealAnalysis_truthy in E.
  - unfold analyzeMealImage_resume in Hres.
    apply bind_Some in Hres as (out & Hout & [= <- <-]).
    split; [|exact Hs]. simpl. intros k e.
    destruct out as [result|]; [|apply Hc].
    intros [[-> ->]|He]%Map_get_setCachedResponse Hk; [|by eapply Hc].
    simpl. by eapply Hs.
  - unfold timer_fires in Hfire. apply bind_Some in Hfire as (t & _ & Hfire).
    destruct (t.1 <=? now); [|done]. by injection Hfire as <-.
  - unfold updateMealAnalysis.
    destruct (ToBoolean _); [done|]. destruct (negb openai); [|done].
    by rewrite sample_with_draws.
  - unfold updateMealAnalysis_resume. destruct up as [content|e].
    + destruct (no_content content); rewrite sample_with_draws; [done|].
      split; [|exact Hs]. simpl. intros k e.
      intros [[-> ->]|He]%Map_get_setCachedResponse Hk; [|by eapply Hc].
      apply parseAnalysisResponse_truthy.
    + by rewrite sample_with_draws.
  - unfold generateText.
    destruct (ToBoolean _); [done|]. by destruct (negb openai).
  - unfold generateText_resume. destruct up; [|done].
    split; [|exact Hs]. simpl. intros k e.
    intros [[-> ->]|He]%Map_get_setCachedResponse; [done|by eapply Hc].
  - unfold generateMealPlan_resume. destruct up as [content|e]; [|done].
    destruct (no_content content); [done|].
    destruct (parseMealPlanResponse _ _ _); [|done].
    split; [|exact Hs]. simpl. intros k e.
    intros [[-> ->]|He]%Map_get_setCachedResponse; [done|by eapply Hc].
  - done.
  - split; [|exact Hs]. simpl. by intros k e [=].
Qed.

Lemma reachable_results_truthy s : reachable s → results_truthy s.
Proof.
  intros H. assert (results_truthy init) as H0.
  { split; simpl; [by intros k e [=]|]. intros p r. by rewrite lookup_empty. }
  revert H0. induction H; eauto using step_results_truthy.
Qed.

Lemma analyze_key_prefix imageBase64 language updateText :
  starts_with "analyze_" (analyze_key imageBase64 language updateText) = true.
Proof. reflexivity. Qed.

(** *** Reading the cache and joining a registered request *)

Lemma getCachedResponse_live c key now entry :
  Map_get c key = Some entry →
  now - timestamp entry < CACHE_DURATION →
  getCachedResponse c key now = data entry.
Proof.
  unfold getCachedResponse. intros -> H.
  by rewrite (proj2 (Z.ltb_lt _ _) H).
Qed.

Lemma getCachedResponse_expired c key now entry :
  Map_get c key = Some entry →
  CACHE_DURATION ≤ now - timestamp entry →
  getCachedResponse c key now = JNull.
Proof.
  unfold getCachedResponse. intros -> H.
  by rewrite (proj2 (Z.ltb_ge _ _) H).
Qed.

(** A call that finds neither a live entry nor a registration performs the
    analysis and registers its promise. *)
Lemma analyzeMealImage_starts s imageBase64 language updateText edited now :
  let key := analyze_key imageBase64 language updateText in
  let call := analyzeMealImage s imageBase64 language updateText edited now in
  ToBoolean (getCachedResponse (requestCache s) key now) = false →
  requestQueue s !! key = None →
  call.1 = Started (performed s) ∧
  performed call.2 = S (performed s) ∧
  requestQueue call.2 !! key = Some (performed s) ∧
  requestCache call.2 = requestCache s.
Proof.
  intros key call Hc Hq. subst key call. unfold OpenAIService.analyzeMealImage.
  rewrite Hc, Hq.
  destruct openai; [|rewrite sample_with_draws]; simpl;
    by rewrite lookup_insert_eq.
Qed.

(** C7, amended.  In a reachable state, a read through [analyzeMealImage]
    less than [CACHE_DURATION] after the entry was stored returns the stored
    value and changes nothing: no call is made.  From [CACHE_DURATION] on the
    entry is not returned: the call gets the promise registered for the key
    when there is one, and otherwise performs the analysis afresh. *)
Theorem C7_cache_read_by_age s imageBase64 language updateText edited now entry :
  reachable s →
  Map_get (requestCache s) (analyze_key imageBase64 language updateText)
    = Some entry →
  let key := analyze_key imageBase64 language updateText in
  let call := analyzeMealImage s imageBase64 language updateText edited now in
  (now - timestamp entry < CACHE_DURATION → call = (Now (data entry), s)) ∧
  (CACHE_DURATION ≤ now - timestamp entry →
     match requestQueue s !! key with
     | Some p => call = (Shared p, s)
     | None =>
         call.1 = Started (performed s) ∧
         performed call.2 = S (performed s) ∧
         requestQueue call.2 !! key = Some (performed s) ∧
         requestCache call.2 = requestCache s
     end).
Proof.
  intros Hreach Hentry key call. subst key call. split.
  - intros Hlive. unfold OpenAIService.analyzeMealImage.
    rewrite (getCachedResponse_live _ _ _ _ Hentry Hlive).
    destruct (reachable_results_truthy s Hreach) as [Hc _].
    by rewrite (Hc _ entry Hentry (analyze_key_prefix _ _ _)).
  - intros Hold.
    pose proof (getCachedResponse_expired _ _ _ _ Hentry Hold) as Hnull.
    destruct (requestQueue s !! _) as [p|] eqn:Hq.
    + unfold OpenAIService.analyzeMealImage. by rewrite Hnull, Hq.
    + apply analyzeMealImage_starts; [by rewrite Hnull|done].
Qed.

(** C1, amended.  While a registration for the fingerprint exists, a call
    of [analyzeMealImage] changes nothing, so [_performMealAnalysis] is not
    invoked again; it returns the registered promise unless the cache holds
    a live truthy entry for the fingerprint, which is returned instead.  On
    the client, [analyzeMeal] returns the registered promise and starts no
    other [retryRequest]. *)
Theorem C1_registered_request_is_not_performed_again
    s imageBase64 language updateText edited now p
    (cs : Client.State) q :
  requestQueue s !! analyze_key imageBase64 language updateText = Some p →
  Client.requestQueue cs !! Client.analyze_key imageBase64 updateText = Some q →
  let cached :=
    getCachedResponse (requestCache s)
      (analyze_key imageBase64 language updateText) now in
  analyzeMealImage s imageBase64 language updateText edited now
    = (if ToBoolean cached then Now cached else Shared p, s) ∧
  Client.analyzeMeal cs imageBase64 updateText = (Client.Shared q, cs).
Proof.
  intros Hs Hc cached. split.
  - unfold OpenAIService.analyzeMealImage. fold cached.
    destruct (ToBoolean cached); [done|]. by rewrite Hs.
  - unfold Client.analyzeMeal. by rewrite Hc.
Qed.

(** A stale or falsy entry stays so as the clock advances. *)
Lemma getCachedResponse_falsy_later c key now now' :
  now ≤ now' →
  ToBoolean (getCachedResponse c key now) = false →
  ToBoolean (getCachedResponse c key now') = false.
Proof.
  unfold getCachedResponse. intros Hle.
  destruct (Map_get c key) as [entry|]; [|done].
  destruct (Z.ltb_spec (now' - timestamp entry) CACHE_DURATION); [|done].
  by rewrite (proj2 (Z.ltb_lt (now - timestamp entry) CACHE_DURATION)) by lia.
Qed.

(** Two calls for one fingerprint, the second while the first is
    suspended: one invocation of [_performMealAnalysis], whose promise both
    get. *)
Lemma second_call_shares_the_first s imageBase64 language updateText edited now now' p :
  let first := analyzeMealImage s imageBase64 language updateText edited now in
  first.1 = Started p →
  now ≤ now' →
  analyzeMealImage first.2 imageBase64 language updateText edited now'
    = (Shared p, first.2) ∧
  performed first.2 = S (performed s).
Proof.
  intros first Hfirst Hle.
  assert (ToBoolean (getCachedResponse (requestCache s)
            (analyze_key imageBase64 language updateText) now) = false
          ∧ requestQueue s !! analyze_key imageBase64 language updateText = None)
    as [Hc Hq].
  { subst first. unfold OpenAIService.analyzeMealImage in Hfirst.
    destruct (ToBoolean _); [done|].
    by destruct (requestQueue s !! _). }
  destruct (analyzeMealImage_starts s imageBase64 language updateText edited now Hc Hq)
    as (H1 & H2 & H3 & H4).
  fold first in H1, H2, H3, H4. rewrite Hfirst in H1. injection H1 as ->.
  split; [|done].
  unfold OpenAIService.analyzeMealImage at 1. rewrite H4, H3.
  by rewrite (getCachedResponse_falsy_later _ _ _ _ Hle Hc).
Qed.

End ServiceProperties.

(** ** What an analysis answers *)

Section AnalysisOutcome.

Import OpenAIService.

Variable extractCleanJSON : string → option string.
Variable parsePartialJSON : string → option JSValue.
Variable Math_random : nat → Q.

#[local] Abbreviation _performMealAnalysis :=
  (OpenAIService._performMealAnalysis extractCleanJSON parsePartialJSON Math_random).
#[local] Abbreviation parseAnalysisResponse :=
  (OpenAIService.parseAnalysisResponse extractCleanJSON parsePartialJSON Math_random).
#[local] Abbreviation try_parse :=
  (OpenAIService.try_parse extractCleanJSON parsePartialJSON).
#[local] Abbreviation generateEnhancedFallbackAnalysis :=
  (OpenAIService.generateEnhancedFallbackAnalysis Math_random).

(** The [catch] block answers with an error of its own exactly for the
    errors of [rethrown], and with the fallback for every other. *)
Lemma analysis_catch_outcome error language updateText i :
  (analysis_catch Math_random error language updateText i).1 =
  if rethrown error
  then inr (new_Error
         (if bool_decide (code error = Some "rate_limit_exceeded")
          then "AI service is busy. Please try again in a moment."
          else if bool_decide (code error = Some "insufficient_quota")
          then "AI analysis quota exceeded. Please try again later."
          else "Analysis is taking too long. Please try again.")%string)
  else inl (generateEnhancedFallbackAnalysis language updateText i).1.
Proof.
  unfold analysis_catch, rethrown.
  destruct (bool_decide (code error = Some "rate_limit_exceeded"%string)); [done|].
  destruct (bool_decide (code error = Some "insufficient_quota"%string)); [done|].
  destruct (from_option _ _ _); [done|]. reflexivity.
Qed.

(** A response, with or without content, always leads to a result. *)
Lemma response_gives_result content language updateText i :
  ∃ r, (_performMealAnalysis (Responded content) language updateText i).1 = inl r.
Proof.
  unfold OpenAIService._performMealAnalysis.
  destruct (no_content content).
  - rewrite analysis_catch_outcome. simpl. eauto.
  - unfold bind, ret. destruct (parseAnalysisResponse _ _ i). eauto.
Qed.

(** C2, amended.  A response whose content cannot be parsed yields the
    fallback result; the analysis returns a result unless the upstream call
    failed with a rate-limit, quota or timeout error, which it answers by
    throwing an error of its own; and a call through [retryRequest] hands
    its caller whatever the last attempt settled with, an error included,
    as it is. *)
Theorem C2_analysis_result_or_rethrown_error
    content up language updateText i
    {W : Type} (requestFn : W → Client.Outcome * W) (w : W) :
  no_content (Some content) = false →
  try_parse content language = None →
  (_performMealAnalysis (Responded (Some content)) language updateText i).1
    = inl (generateEnhancedFallbackAnalysis language None i).1 ∧
  ((∃ r, (_performMealAnalysis up language updateText i).1 = inl r) ↔
   (∀ error, up = Failed error → rethrown error = false)) ∧
  (∀ error, up = Failed error → rethrown error = true →
     ∃ msg, (_performMealAnalysis up language updateText i).1
            = inr (new_Error msg)) ∧
  (∃ n, (1 ≤ n ≤ 3)%nat ∧
     last (Client.replies requestFn w n)
     = Some (Client.retryRequest requestFn w 1).1.1).
Proof.
  intros Hcontent Hparse. split; [|split; [|split]].
  - unfold OpenAIService._performMealAnalysis. rewrite Hcontent.
    unfold bind, ret, OpenAIService.parseAnalysisResponse.
    change (default EmptyString (Some content)) with content. rewrite Hparse.
    by destruct (generateEnhancedFallbackAnalysis language None i).
  - destruct up as [c|error].
    + split; [by intros _ error [=]|].
      intros _. apply response_gives_result.
    + simpl. rewrite analysis_catch_outcome. split.
      * intros [r Hr] error' [= <-]. by destruct (rethrown error).
      * intros H. rewrite (H error eq_refl). eauto.
  - intros error -> Hre. simpl. rewrite analysis_catch_outcome, Hre. eauto.
  - destruct (retryRequest_run requestFn w 1) as (n & H). exists n.
    destruct (Client.retryRequest requestFn w 1) as [[o w'] log]. simpl.
    destruct H as (Hn & _ & Hlast & _). split; [simpl in Hn; lia|done].
Qed.

(** C9.  Whatever the language and the update text, and whatever the
    random source hands out within [0,1), the fallback result has
    confidence 65 and calories between 300 and 700; and so has the result of
    [parseAnalysisResponse] for a content the parsers reject. *)
Theorem C9_fallback_confidence_and_calories language updateText content i :
  (∀ j, (0 <= Math_random j)%Q ∧ (Math_random j < 1)%Q) →
  extractCleanJSON content ≫= parsePartialJSON = None →
  let fallback := (generateEnhancedFallbackAnalysis language updateText i).1 in
  let parsed := (parseAnalysisResponse content language i).1 in
  prop fallback "confidence" = JQ 65 ∧
  (∃ c, prop fallback "calories" = JQ c ∧ (300 <= c <= 700)%Q) ∧
  prop parsed "confidence" = JQ 65 ∧
  (∃ c, prop parsed "calories" = JQ c ∧ (300 <= c <= 700)%Q).
Proof.
  intros Hrange Hreject fallback parsed.
  assert (∃ c, JQ (300 + floorQ (Math_random i * 400)) = JQ c
               ∧ (300 <= c <= 700)%Q) as Hcal.
  { eexists. split; [reflexivity|].
    destruct (Hrange i) as [H0 H1].
    pose proof (base_calories_range _ H0 H1). lra. }
  assert (parsed = (generateEnhancedFallbackAnalysis language None i).1) as ->.
  { subst parsed. unfold OpenAIService.parseAnalysisResponse, OpenAIService.try_parse.
    destruct (extractCleanJSON content) as [c|]; simpl in *; [|done].
    by rewrite Hreject. }
  subst fallback. repeat split; try reflexivity; exact Hcal.
Qed.

End AnalysisOutcome.

(** ** Concrete runs of the service *)

Section Runs.

Import OpenAIService Scenario.

#[local] Abbreviation step :=
  (OpenAIService.step (@no_parse string) (@no_parse JSValue) zero_random true).
#[local] Abbreviation reachable :=
  (OpenAIService.reachable (@no_parse string) (@no_parse JSValue) zero_random true).

Lemma resume_step s p now :
  (p, key) ∈ awaiting s →
  is_Some (settled s !! p) →
  step s (resume s p now).
Proof.
  intros Hin [out Hout]. unfold resume.
  destruct (analyzeMealImage_resume s p key now) as [[o s']|] eqn:E.
  - by eapply step_analyze_resume.
  - unfold analyzeMealImage_resume in E. by rewrite Hout in E.
Qed.

Lemma fire_step s i now :
  is_Some (timer_fires s i now) → step s (fire s i now).
Proof.
  intros [s' Hs']. unfold fire. rewrite Hs'. by eapply step_timer.
Qed.

Lemma reachable_cached_at_5 : reachable cached_at_5.
Proof.
  unfold OpenAIService.reachable, cached_at_5. cbv zeta.
  eapply rtc_l; [apply (step_analyze _ _ _ _ init "aGVsbG8=" "english" None [] 0)|].
  eapply rtc_l; [apply (step_upstream _ _ _ _ _ 0%nat (Responded None))|].
  apply rtc_once, resume_step.
  - vm_compute. left.
  - vm_compute. eauto.
Qed.

Lemma reachable_expired_beside_pending : reachable expired_beside_pending.
Proof.
  unfold expired_beside_pending. cbv zeta.
  eapply rtc_trans; [exact reachable_cached_at_5|].
  eapply rtc_l; [apply (fire_step _ 0%nat 1005); vm_compute; eauto|].
  apply rtc_once.
  apply (step_analyze _ _ _ _ _ "aGVsbG8=" "english" None [] 600005).
Qed.

Lemma reachable_cached_beside_pending : reachable cached_beside_pending.
Proof.
  unfold OpenAIService.reachable, cached_beside_pending. cbv zeta.
  eapply rtc_l; [apply (step_analyze _ _ _ _ init "aGVsbG8=" "english" None [] 0)|].
  eapply rtc_l; [apply step_clear|].
  eapply rtc_l; [apply (step_analyze _ _ _ _ _ "aGVsbG8=" "english" None [] 10)|].
  eapply rtc_l; [apply (step_upstream _ _ _ _ _ 0%nat (Responded None))|].
  apply rtc_once, resume_step.
  - vm_compute. left.
  - vm_compute. eauto.
Qed.

(** C1 as stated fails on the server.  After two calls for one image with
    [clearCaches] between them, the first has completed and its result is
    cached while the promise of the second, number 1, is registered and
    pending; a third call returns the cached result of the first, not the
    registered promise. *)
Lemma C1_live_entry_is_returned_not_the_pending_promise :
  ¬ (∀ s imageBase64 language updateText edited now p,
       reachable s →
       requestQueue s !! analyze_key imageBase64 language updateText = Some p →
       (analyzeMealImage zero_random true s imageBase64 language updateText
          edited now).1 = Shared p).
Proof.
  intros H.
  specialize (H cached_beside_pending "aGVsbG8=" "english" None [] 30 1%nat
                reachable_cached_beside_pending).
  vm_compute in H. specialize (H eq_refl). discriminate.
Qed.

Lemma promise_1_is_pending :
  is_Some (inflight cached_beside_pending !! 1%nat) ∧
  settled cached_beside_pending !! 1%nat = None.
Proof. vm_compute. eauto. Qed.

(** C7 as stated fails.  The entry stored at time 5 has expired at time
    600005 and a call for the same image is already under way; another read
    at that time neither returns the entry nor performs the analysis
    again. *)
Lemma C7_expired_read_joins_the_pending_call :
  ¬ (∀ s imageBase64 language updateText edited now entry,
       reachable s →
       Map_get (requestCache s) (analyze_key imageBase64 language updateText)
         = Some entry →
       CACHE_DURATION ≤ now - timestamp entry →
       performed (analyzeMealImage zero_random true s imageBase64 language
                    updateText edited now).2 = S (performed s)).
Proof.
  intros H.
  specialize (H expired_beside_pending "aGVsbG8=" "english" None [] 600005
                (default (mkEntry JNull 0)
                   (Map_get (requestCache expired_beside_pending) key))
                reachable_expired_beside_pending).
  vm_compute in H. specialize (H eq_refl ltac:(discriminate)). discriminate.
Qed.

(** C2 as stated fails: when the upstream call fails with the code
    [rate_limit_exceeded], the analysis throws. *)
Lemma C2_rate_limit_error_is_thrown :
  ¬ (∀ up language updateText i,
       ∃ r, (_performMealAnalysis (@no_parse string) (@no_parse JSValue)
               zero_random up language updateText i).1 = inl r).
Proof.
  intros H.
  destruct (H (Failed {| code := Some "rate_limit_exceeded"; message := None |})
              "english" None 0%nat) as [r Hr].
  vm_compute in Hr. discriminate.
Qed.

(** What the promise settled with is what the suspended call returns or
    throws. *)
Lemma resume_hands_on_the_outcome s p requestKey now out s' :
  analyzeMealImage_resume s p requestKey now = Some (out, s') →
  settled s !! p = Some out.
Proof.
  unfold analyzeMealImage_resume. intros H.
  apply bind_Some in H as (o & Ho & [= <- _]). done.
Qed.

End Runs.

(** ** The theorems at concrete inputs *)

Section Instances.

Import OpenAIService Scenario.

Lemma C1_witness :
  let cached := getCachedResponse (requestCache (analyze init 0).2) key 1 in
  analyzeMealImage zero_random true (analyze init 0).2
    "aGVsbG8=" "english" None [] 1
    = (if ToBoolean cached then Now cached else Shared 0, (analyze init 0).2) ∧
  Client.analyzeMeal client_registered "aGVsbG8=" None
    = (Client.Shared 0, client_registered).
Proof.
  apply (C1_registered_request_is_not_performed_again zero_random true
           (analyze init 0).2 "aGVsbG8=" "english" None [] 1 0%nat
           client_registered 0%nat);
    vm_compute; reflexivity.
Defined.

Lemma C2_witness :
  (_performMealAnalysis (@no_parse string) (@no_parse JSValue) zero_random
     (Responded (Some "not json")) "english" None 0%nat).1
    = inl (generateEnhancedFallbackAnalysis zero_random "english" None 0%nat).1 ∧
  ((∃ r, (_performMealAnalysis (@no_parse string) (@no_parse JSValue) zero_random
            (Responded None) "english" None 0%nat).1 = inl r) ↔
   (∀ error, Responded None = Failed error → rethrown error = false)) ∧
  (∀ error, Responded None = Failed error → rethrown error = true →
     ∃ msg, (_performMealAnalysis (@no_parse string) (@no_parse JSValue)
               zero_random (Responded None) "english" None 0%nat).1
            = inr (new_Error msg)) ∧
  (∃ n, (1 ≤ n ≤ 3)%nat ∧
     last (Client.replies Client.api_request (world web_device []) n)
     = Some (Client.retryRequest Client.api_request (world web_device []) 1).1.1).
Proof.
  apply (C2_analysis_result_or_rethrown_error (@no_parse string)
           (@no_parse JSValue) zero_random "not json" (Responded None)
           "english" None 0%nat Client.api_request (world web_device []));
    reflexivity.
Defined.

Lemma C7_witness :
  let entry := default (mkEntry JNull 0) (Map_get (requestCache cached_at_5) key) in
  let call := analyze cached_at_5 100 in
  (100 - timestamp entry < CACHE_DURATION → call = (Now (data entry), cached_at_5)) ∧
  (CACHE_DURATION ≤ 100 - timestamp entry →
     match requestQueue cached_at_5 !! key with
     | Some p => call = (Shared p, cached_at_5)
     | None =>
         call.1 = Started (performed cached_at_5) ∧
         performed call.2 = S (performed cached_at_5) ∧
         requestQueue call.2 !! key = Some (performed cached_at_5) ∧
         requestCache call.2 = requestCache cached_at_5
     end).
Proof.
  apply (C7_cache_read_by_age (@no_parse string) (@no_parse JSValue)
           zero_random true cached_at_5 "aGVsbG8=" "english" None [] 100).
  - exact reachable_cached_at_5.
  - vm_compute. reflexivity.
Defined.

Lemma C8_witness :
  ∃ oldestKey oldest rest,
    full_cache = (oldestKey, oldest) :: rest ∧
    setCachedResponse full_cache "new" JNull 1000
    = rest ++ [("new"%string, {| data := JNull; timestamp := 1000 |})] ∧
    Map_get (setCachedResponse full_cache "new" JNull 1000) oldestKey = None ∧
    length (setCachedResponse full_cache "new" JNull 1000) = MAX_CACHE_SIZE.
Proof.
  apply (C8_insert_at_capacity_evicts_oldest full_cache "new" JNull 1000).
  - apply (bool_decide_unpack _). vm_compute. reflexivity.
  - reflexivity.
  - vm_compute. reflexivity.
Defined.

Lemma C9_witness :
  let fallback :=
    (generateEnhancedFallbackAnalysis half_random "hebrew" (Some "more rice") 0%nat).1 in
  let parsed :=
    (parseAnalysisResponse (@no_parse string) (@no_parse JSValue) half_random
       "not json" "hebrew" 0%nat).1 in
  prop fallback "confidence" = JQ 65 ∧
  (∃ c, prop fallback "calories" = JQ c ∧ (300 <= c <= 700)%Q) ∧
  prop parsed "confidence" = JQ 65 ∧
  (∃ c, prop parsed "calories" = JQ c ∧ (300 <= c <= 700)%Q).
Proof.
  apply (C9_fallback_confidence_and_calories (@no_parse string)
           (@no_parse JSValue) half_random "hebrew" (Some "more rice")
           "not json" 0%nat).
  - intros j. split; [discriminate|reflexivity].
  - reflexivity.
Defined.

Lemma C10_witness : bounded cached_beside_pending.
Proof.
  apply (C10_cache_stays_within_capacity (@no_parse string) (@no_parse JSValue)
           zero_random true init cached_beside_pending).
  - eapply rtc_subrel; [|exact reachable_cached_beside_pending].
    intros s s' Hstep. by left.
  - unfold bounded. simpl. lia.
Defined.

End Instances.

(** * Further properties *)

(** ** Request keys *)

Section RequestKeys.

Import OpenAIService Keys.

Lemma substring0_length n s :
  String.length (substring0 n s) = Nat.min n (String.length s).
Proof.
  unfold substring0. revert s. induction n as [|n IH]; intros [|c s]; simpl; eauto.
Qed.




(** X2.  Keys made for different entry points differ, whatever the
    prompts: no entry point is ever served an entry of another. *)
Theorem X2_request_key_namespaces t1 t2 p1 p2 :
  t1 ∈ request_types → t2 ∈ request_types → t1 ≠ t2 →
  createRequestKey p1 t1 ≠ createRequestKey p2 t2.
Proof.
  unfold request_types. rewrite !elem_of_cons, !elem_of_nil.
  intros [->|[->|[->|[->|[]]]]] [->|[->|[->|[->|[]]]]] Hne; try done;
    unfold createRequestKey; simpl; discriminate.
Qed.

Lemma substring0_app n a b :
  (n ≤ String.length a)%nat → substring0 n (a +:+ b) = substring0 n a.
Proof.
  unfold substring0. revert a. induction n as [|n IH]; intros [|c a]; simpl; intros H.
  - by destruct b.
  - done.
  - lia.
  - f_equal. apply IH. lia.
Qed.

Lemma append_length a b :
  String.length (a +:+ b) = (String.length a + String.length b)%nat.
Proof. induction a as [|c a IH]; simpl; [done|]. by rewrite IH. Qed.

Lemma append_assoc a b c : (a +:+ b) +:+ c = a +:+ (b +:+ c).
Proof.
  induction a as [|x a IH]; [done|].
  change ((String x a +:+ b) +:+ c) with (String x ((a +:+ b) +:+ c)).
  change (String x a +:+ (b +:+ c)) with (String x (a +:+ (b +:+ c))).
  by rewrite IH.
Qed.

(** X3.  The key of [analyzeMealImage] is cut at 100 characters: when the
    50 characters of the image and the update text fill them, the language
    no longer enters the key, and a call in one language is answered with
    what is cached for the other. *)
Theorem X3_long_update_text_hides_language
    (Math_random : nat → Q) (openai : bool)
    s imageBase64 updateText l1 l2 edited now v :
  (100 ≤ String.length (substring0 50 imageBase64) + 1
         + String.length updateText)%nat →
  analyzeMealImage Math_random openai s imageBase64 l1 (Some updateText)
    edited now = (Now v, s) →
  analyze_key imageBase64 l1 (Some updateText)
    = analyze_key imageBase64 l2 (Some updateText) ∧
  analyzeMealImage Math_random openai s imageBase64 l2 (Some updateText)
    edited now = (Now v, s).
Proof.
  intros Hlen Hcall.
  assert (analyze_key imageBase64 l1 (Some updateText)
          = analyze_key imageBase64 l2 (Some updateText)) as Hkey.
  { unfold analyze_key, createRequestKey. do 3 f_equal.
    assert (text_given (Some updateText) = true) as ->.
    { destruct updateText; [simpl in Hlen|done].
      pose proof (substring0_length 50 imageBase64). lia. }
    cbn [default from_option id].
    rewrite <- !(append_assoc (substring0 50 imageBase64) "_"),
            <- !(append_assoc _ updateText).
    set (head := (substring0 50 imageBase64 +:+ "_") +:+ updateText).
    assert (100 ≤ String.length head)%nat as Hhead.
    { subst head. rewrite !append_length. simpl. lia. }
    by rewrite !(substring0_app 100 head) by done. }
  split; [done|].
  unfold analyzeMealImage in *. rewrite <- Hkey.
  destruct (ToBoolean _); [done|].
  destruct (requestQueue s !! _); [done|].
  destruct openai; [done|]. by destruct (sample _ s).
Qed.

End RequestKeys.

(** ** Writing and reading the response cache *)

Section CacheReadWrite.

Import OpenAIService.

Implicit Types (c : Cache) (k key : string) (e : CacheEntry).

Lemma getCachedResponse_set c key d now now' :
  getCachedResponse (setCachedResponse c key d now) key now'
  = if now' - now <? CACHE_DURATION then d else JNull.
Proof.
  unfold getCachedResponse. by rewrite Map_get_setCachedResponse_new.
Qed.

(** X4.  What was written under a key is read back under it for
    [CACHE_DURATION] milliseconds from the time of writing, and [null] is
    read from then on. *)
Theorem X4_cache_write_then_read c key d now now' :
  getCachedResponse (setCachedResponse c key d now) key now'
  = if now' - now <? CACHE_DURATION then d else JNull.
Proof. apply getCachedResponse_set. Qed.

(** X5.  A write leaves the entry of every other key as it was, except
    that the first key of a full cache is gone. *)
Theorem X5_cache_write_leaves_other_keys c key d now k' :
  k' ≠ key →
  Map_get (setCachedResponse c key d now) k'
  = if bool_decide ((MAX_CACHE_SIZE ≤ length c)%nat
                    ∧ Map_first_key c = Some k')
    then None else Map_get c k'.
Proof.
  intros Hne. unfold setCachedResponse. rewrite Map_get_set.
  rewrite decide_False by done.
  destruct (Nat.leb_spec MAX_CACHE_SIZE (length c)) as [Hfull|Hroom].
  - destruct (Map_first_key c) as [k0|] eqn:E.
    + rewrite Map_get_delete. case_decide as Hk.
      * subst k0. by rewrite bool_decide_eq_true_2.
      * rewrite bool_decide_eq_false_2; [done|]. intros [_ [=]]. done.
    + rewrite bool_decide_eq_false_2; [done|]. by intros [_ [=]].
  - rewrite bool_decide_eq_false_2; [done|]. intros [? _]. lia.
Qed.

(** X6.  Writing a key that is present into a full cache evicts all the
    same: when the key is the oldest, its entry moves to the newest place
    and the cache stays full; otherwise the oldest entry is lost, the key
    keeps its place and the cache is left with one entry less than its
    capacity. *)
Theorem X6_rewrite_in_full_cache_evicts c key d now e :
  NoDup c.*1 →
  length c = MAX_CACHE_SIZE →
  Map_get c key = Some e →
  ∃ oldestKey oldest rest,
    c = (oldestKey, oldest) :: rest ∧
    if decide (key = oldestKey)
    then setCachedResponse c key d now
         = rest ++ [(key, {| data := d; timestamp := now |})]
    else setCachedResponse c key d now
         = Map_set rest key {| data := d; timestamp := now |} ∧
         Map_get (setCachedResponse c key d now) oldestKey = None ∧
         S (length (setCachedResponse c key d now)) = MAX_CACHE_SIZE.
Proof.
  intros Hdup Hlen Hkey.
  destruct c as [|[k0 e0] rest]; [discriminate|].
  exists k0, e0, rest. split; [done|].
  assert (setCachedResponse ((k0, e0) :: rest) key d now
          = Map_set rest key {| data := d; timestamp := now |}) as ->.
  { unfold setCachedResponse. rewrite Hlen, Nat.leb_refl.
    change (Map_first_key ((k0, e0) :: rest)) with (Some k0). cbv iota beta.
    by rewrite Map_delete_first. }
  rewrite fmap_cons, NoDup_cons in Hdup. destruct Hdup as [Hk0 _].
  case_decide as Hk.
  - subst k0. apply Map_set_fresh. by apply Map_get_None.
  - split; [done|]. split.
    + rewrite Map_get_set, decide_False by done. by apply Map_get_None.
    + rewrite Map_set_length. simpl in Hkey.
      rewrite (proj2 (String.eqb_neq k0 key)) in Hkey by done.
      rewrite Hkey. simpl in Hlen. lia.
Qed.

End CacheReadWrite.

(** ** Calls that end in the cache *)

Section CachedAnswers.

Import OpenAIService.

Variable extractCleanJSON : string → option string.
Variable parsePartialJSON : string → option JSValue.
Variable Math_random : nat → Q.
Variable openai : bool.

#[local] Abbreviation analyzeMealImage :=
  (OpenAIService.analyzeMealImage Math_random openai).
#[local] Abbreviation upstream_settles :=
  (OpenAIService.upstream_settles extractCleanJSON parsePartialJSON Math_random).
#[local] Abbreviation reachable :=
  (OpenAIService.reachable extractCleanJSON parsePartialJSON Math_random openai).
#[local] Abbreviation _performMealAnalysis :=
  (OpenAIService._performMealAnalysis extractCleanJSON parsePartialJSON Math_random).
#[local] Abbreviation generateEnhancedFallbackAnalysis :=
  (OpenAIService.generateEnhancedFallbackAnalysis Math_random).

(** The suspended call of a pending promise, once the upstream call has
    settled: what it returns, and what it leaves in the cache. *)
Lemma settle_then_resume s p call key up now result :
  inflight s !! p = Some call →
  (_performMealAnalysis up (call_language call) (call_updateText call)
     (draws s)).1 = inl result →
  ∃ s', analyzeMealImage_resume (upstream_settles s p up) p key now
        = Some (inl result, s') ∧
        requestCache s' = setCachedResponse (requestCache s) key result now.
Proof.
  intros Hp Hres. unfold OpenAIService.upstream_settles. rewrite Hp.
  rewrite sample_with_draws. cbv zeta. rewrite Hres.
  unfold analyzeMealImage_resume. simpl. rewrite lookup_insert_eq. simpl.
  eexists. split; reflexivity.
Qed.

(** X7.  When the upstream call fails with an error that is not rethrown,
    the random fallback becomes the result of the analysis, is cached like
    any other result and is served from the cache for [CACHE_DURATION]
    milliseconds. *)
Theorem X7_fallback_result_is_cached
    s p imageBase64 language updateText edited error now now' :
  inflight s !! p
    = Some {| call_language := language; call_updateText := updateText |} →
  rethrown error = false →
  now' - now < CACHE_DURATION →
  let key := analyze_key imageBase64 language updateText in
  let fallback :=
    (generateEnhancedFallbackAnalysis language updateText (draws s)).1 in
  ∃ s', analyzeMealImage_resume (upstream_settles s p (Failed error)) p key now
        = Some (inl fallback, s') ∧
        analyzeMealImage s' imageBase64 language updateText edited now'
        = (Now fallback, s').
Proof.
  intros Hp Hre Hlive key fallback.
  destruct (settle_then_resume s p _ key (Failed error) now fallback Hp)
    as (s' & Hres & Hcache).
  { simpl. by rewrite analysis_catch_outcome, Hre. }
  exists s'. split; [done|].
  unfold OpenAIService.analyzeMealImage. fold key. rewrite Hcache.
  rewrite getCachedResponse_set, (proj2 (Z.ltb_lt _ _) Hlive).
  subst fallback. by rewrite fallback_truthy.
Qed.

(** X8.  In every reachable state the results the promises were fulfilled
    with, and the entries cached under the keys of [analyzeMealImage], are
    truthy: the test [if (cached)] never discards a live analysis. *)
Theorem X8_analysis_results_stay_truthy s :
  reachable s → results_truthy s.
Proof. apply reachable_results_truthy. Qed.

(** X9.  Of two calls of [analyzeMealImage] for one fingerprint, the second
    made while the first is suspended and the clock has not gone back, only
    the first invokes [_performMealAnalysis]; the second returns the promise
    of the first and changes nothing. *)
Theorem X9_second_call_joins_the_first
    s imageBase64 language updateText edited now now' p :
  (analyzeMealImage s imageBase64 language updateText edited now).1
    = Started p →
  now ≤ now' →
  let s1 := (analyzeMealImage s imageBase64 language updateText edited now).2 in
  analyzeMealImage s1 imageBase64 language updateText edited now'
    = (Shared p, s1) ∧
  performed s1 = S (performed s).
Proof. intros H Hle. by apply second_call_shares_the_first. Qed.

(** X10.  An empty completion is written to the cache, but the entry is
    falsy and never served: the next call for the prompt goes upstream
    again, however soon it comes. *)
Theorem X10_empty_completion_is_never_served s content prompt now now' :
  text_given content = false →
  let s' := (generateText_resume s (Responded content) prompt now).2 in
  Map_get (requestCache s') (createRequestKey prompt "text")
    = Some {| data := JStr EmptyString; timestamp := now |} ∧
  generateText true s' prompt now'
    = (Called (createRequestKey prompt "text"), s').
Proof.
  intros Hempty s'. subst s'. unfold generateText_resume, generateText.
  rewrite Hempty. cbn [snd with_cache requestCache]. split.
  - apply Map_get_setCachedResponse_new.
  - rewrite getCachedResponse_set. by destruct (_ <? _).
Qed.

(** X11.  A completion that is not empty is served from the cache for
    [CACHE_DURATION] milliseconds, to the prompt it was made for and to
    every prompt with the same first 100 characters. *)
Theorem X11_completion_is_shared_by_prompt_prefix
    s content prompt prompt' now now' :
  text_given (Some content) = true →
  substring0 100 prompt' = substring0 100 prompt →
  now' - now < CACHE_DURATION →
  let s' := (generateText_resume s (Responded (Some content)) prompt now).2 in
  generateText openai s' prompt' now' = (FromCache (JStr content), s').
Proof.
  intros Hcontent Hprefix Hlive s'. subst s'.
  unfold generateText_resume, generateText, createRequestKey.
  rewrite Hcontent, Hprefix. cbn [snd with_cache requestCache default from_option id].
  rewrite getCachedResponse_set, (proj2 (Z.ltb_lt _ _) Hlive).
  simpl in Hcontent. simpl. by rewrite Hcontent.
Qed.

(** X12.  [clearCaches] neither cancels nor remembers the analyses under
    way: a call for the fingerprint of a pending promise performs the
    analysis again, and the result of the pending promise is cached when it
    arrives. *)
Theorem X12_clearCaches_keeps_calls_running
    s p imageBase64 language updateText edited up now now' result :
  inflight s !! p
    = Some {| call_language := language; call_updateText := updateText |} →
  (_performMealAnalysis up language updateText (draws s)).1 = inl result →
  let key := analyze_key imageBase64 language updateText in
  (analyzeMealImage (clearCaches s) imageBase64 language updateText edited now).1
    = Started (performed s) ∧
  ∃ s', analyzeMealImage_resume (upstream_settles (clearCaches s) p up) p key now'
        = Some (inl result, s') ∧
        Map_get (requestCache s') key
        = Some {| data := result; timestamp := now' |}.
Proof.
  intros Hp Hres key. split.
  - unfold OpenAIService.analyzeMealImage.
    change (getCachedResponse (requestCache (clearCaches s)) _ now) with JNull.
    change (requestQueue (clearCaches s)) with (∅ : gmap string nat).
    rewrite lookup_empty. cbn [ToBoolean].
    destruct openai; [done|]. by rewrite sample_with_draws.
  - destruct (settle_then_resume (clearCaches s) p _ key up now' result Hp Hres)
      as (s' & Hresume & Hcache).
    exists s'. split; [done|]. rewrite Hcache.
    apply Map_get_setCachedResponse_new.
Qed.

End CachedAnswers.

(** ** More on the retry wrapper and the interceptors *)

Section RetryRuns.

Import Client.

Context {W : Type}.
Variable requestFn : W → Outcome * W.

#[local] Abbreviation retryRequest := (Client.retryRequest requestFn).

Lemma retryRequest_earlier_attempts w attempt i o :
  attempts_of (retryRequest w attempt).2 !! i = Some o →
  (S i < length (attempts_of (retryRequest w attempt).2))%nat →
  ∃ error, o = inr error ∧ no_retry error = false.
Proof.
  revert i. funelim (retryRequest w attempt); intros i; simpl.
  1-3: intros _ Hlt; lia.
  rewrite Heq in Hind. simpl in Hind.
  destruct i as [|i]; simpl.
  - intros [= <-] _. eauto.
  - intros Hi Hlt. apply (Hind _ i Hi). lia.
Qed.

(** X13.  An attempt that is followed by another had failed, and with an
    error that may be retried: after a success, or after an error of status
    401, 403 or 422 or of name [AbortError], [requestFn] is not called
    again. *)
Theorem X13_only_retryable_failures_are_followed w i o :
  attempts_of (retryRequest w 1).2 !! i = Some o →
  (S i < length (attempts_of (retryRequest w 1).2))%nat →
  ∃ error,
    o = inr error ∧
    status error ≠ Some 401 ∧ status error ≠ Some 403 ∧
    status error ≠ Some 422 ∧ name error ≠ "AbortError"%string.
Proof.
  intros Hi Hlt.
  destruct (retryRequest_earlier_attempts w 1 i o Hi Hlt) as (error & -> & Hno).
  exists error. split; [done|]. by apply no_retry_false.
Qed.

End RetryRuns.

Section Interceptors.

Import Client Interceptors.

Lemma api_request_not_401 w :
  not_401 (api_request w).1 →
  device (api_request w).2 = device w ∧
  sent (api_request w).2 = sent w ++ [authorization (device w)].
Proof.
  unfold api_request. simpl. intros H.
  destruct (default (inr network_error) (head (upcoming w)))
    as [r|error]; [done|].
  unfold on_rejected. by rewrite bool_decide_eq_false_2 by by apply H.
Qed.

Lemma world_after_not_401 n w :
  Forall not_401 (replies api_request w n) →
  device (world_after api_request w n) = device w ∧
  sent (world_after api_request w n)
  = sent w ++ replicate n (authorization (device w)).
Proof.
  revert w. induction n as [|n IH]; intros w.
  - intros _. simpl. by rewrite app_nil_r.
  - rewrite replies_S, Forall_cons. intros [H1 Hn]. cbn [world_after].
    destruct (api_request_not_401 w H1) as [Hd Hs].
    destruct (IH _ Hn) as [Hd' Hs']. rewrite Hd', Hs', Hd, Hs.
    split; [done|]. by rewrite <- app_assoc.
Qed.

(** X14.  A run of [retryRequest] over the axios instance in which no
    attempt is answered with a 401 leaves the device as it was, the stored
    tokens included, and every attempt carries the same [Authorization]
    header. *)
Theorem X14_run_without_401_keeps_the_device w :
  let '(o, w', log) := retryRequest api_request w 1 in
  Forall not_401 (attempts_of log) →
  device w' = device w ∧
  sent w' = sent w ++ replicate (length (attempts_of log))
                        (authorization (device w)).
Proof.
  destruct (retryRequest_run api_request w 1) as (n & H).
  destruct (retryRequest api_request w 1) as [[o w'] log].
  destruct H as (_ & -> & _ & -> & _).
  rewrite schedule_attempts, replies_length. apply world_after_not_401.
Qed.

Lemma clear_auth_no_token d :
  platform d = Web ∨ secureStore_throws d = false →
  request_token (clear_auth d) = None.
Proof.
  unfold request_token, clear_auth.
  destruct d as [[] ls ss th a loc]; simpl.
  - intros _. apply lookup_delete_eq.
  - intros [Hweb | ->]; [done|]. simpl. apply lookup_delete_eq.
Qed.

Lemma on_rejected_keeps_no_token d error :
  request_token d = None → request_token (on_rejected d error) = None.
Proof.
  unfold on_rejected. case_bool_decide; [|done].
  unfold request_token, redirect_to_signin, clear_auth.
  destruct d as [[] ls ss th a loc]; simpl.
  - intros _. apply lookup_delete_eq.
  - destruct th; simpl; [done|]. intros _. apply lookup_delete_eq.
Qed.

Lemma no_token_no_header d : request_token d = None → authorization d = None.
Proof. unfold authorization. by intros ->. Qed.

Lemma world_after_no_token n w :
  request_token (device w) = None →
  sent (world_after api_request w n) = sent w ++ replicate n None.
Proof.
  revert w. induction n as [|n IH]; intros w Hw.
  - simpl. by rewrite app_nil_r.
  - cbn [world_after]. rewrite IH.
    + simpl. rewrite (no_token_no_header _ Hw). by rewrite <- app_assoc.
    + simpl. destruct (default (inr network_error) (head (upcoming w)));
        [done|].
      by apply on_rejected_keeps_no_token.
Qed.

(** X15.  After a request answered with a 401, on the web or on a device
    whose [SecureStore] works, no later request carries an [Authorization]
    header, however many follow; and where [window.location] exists it
    points to the sign-in page. *)
Theorem X15_no_token_is_sent_after_a_401 w error n :
  (api_request w).1 = inr error →
  status error = Some 401 →
  platform (device w) = Web ∨ secureStore_throws (device w) = false →
  let w' := (api_request w).2 in
  sent (world_after api_request w' n) = sent w' ++ replicate n None ∧
  location (device w') = (λ _, "/signin"%string) <$> location (device w).
Proof.
  intros Ho Hs Hd w'. subst w'. unfold api_request in *. simpl in *.
  rewrite Ho. split.
  - apply world_after_no_token. simpl. unfold on_rejected.
    rewrite bool_decide_eq_true_2 by done.
    pose proof (clear_auth_no_token _ Hd) as H.
    unfold request_token in *. by destruct (device w) as [[] ? ? [] ? ?].
  - unfold on_rejected. rewrite bool_decide_eq_true_2 by done.
    simpl. unfold clear_auth.
    by destruct (device w) as [[] ? ? [] ? ?].
Qed.

End Interceptors.

(** ** The token cache of [AuthAPI] and the message cache of [ChatAPI] *)

Section TokenCache.

Import Client AuthAPI.

Lemma signOut_clear_no_token d : request_token (signOut_clear d) = None.
Proof.
  unfold request_token, signOut_clear.
  destruct d as [[] ls ss [] a loc]; simpl; apply lookup_delete_eq.
Qed.

(** X16.  After [signOut] there is no token left, on any platform, whether
    [SecureStore] works or not and however the sign-out request ended:
    [getStoredToken] answers [null] and no later request carries an
    [Authorization] header. *)
Theorem X16_signOut_leaves_no_token a w now n :
  let '(a', w') := signOut a w in
  getStoredToken a' (device w') now = (JNull, a') ∧
  sent (world_after api_request w' n) = sent w' ++ replicate n None.
Proof.
  unfold signOut. destruct (api_request w) as [o w1]. split.
  - unfold getStoredToken. simpl. by rewrite signOut_clear_no_token.
  - apply world_after_no_token. simpl. apply signOut_clear_no_token.
Qed.

(** X17.  For five minutes after a sign-in that brought a token,
    [getStoredToken] answers with that token without looking at the device:
    neither what the stores hold nor a 401 that emptied them has any
    bearing.  From then on it answers with the token of the store, or
    [null]. *)
Theorem X17_signed_in_token_is_cached a w t0 response a' w' token d now :
  signIn a w t0 = (inl response, a', w') →
  Get (response_data response) "token" = Some token →
  ToBoolean token = true →
  (now - t0 < CACHE_DURATION → getStoredToken a' d now = (token, a')) ∧
  (CACHE_DURATION ≤ now - t0 →
     (getStoredToken a' d now).1
     = from_option JStr JNull (request_token d)).
Proof.
  unfold signIn. destruct (retryRequest api_request w 1) as [[o w1] log].
  destruct o as [r|error]; [|by intros [=]].
  destruct (Get (response_data r) "token") as [tok|] eqn:E; [|by intros [=]].
  intros [= <- <- <-] Htok Htruthy. rewrite E in Htok. injection Htok as ->.
  rewrite Htruthy. unfold getStoredToken. simpl. rewrite Htruthy. split.
  - intros H. by rewrite (proj2 (Z.ltb_lt _ _) H).
  - intros H. rewrite (proj2 (Z.ltb_ge _ _) H). simpl.
    by destruct (request_token d).
Qed.

End TokenCache.

Section MessageCache.

Import Client OpenAIService ChatAPI.

Implicit Types (c : Cache).

(** X18.  [messageCache] never holds more than 50 entries: a cache within
    that bound is within it after [sendMessage] and after [clearHistory],
    however the request ended. *)
Theorem X18_message_cache_is_bounded c cacheKey o now :
  (length c ≤ 50)%nat →
  (length (sendMessage_resume c cacheKey o now).2 ≤ 50)%nat ∧
  (length (clearHistory c o).2 ≤ 50)%nat.
Proof.
  intros H. split.
  - unfold sendMessage_resume. destruct o as [r|error]; [|done].
    destruct (Get _ _) as [success|]; [|done]. simpl.
    destruct (ToBoolean success); [|done].
    pose proof (Map_set_length c cacheKey
      {| data := response_data r; timestamp := now |}) as Hset.
    destruct (Nat.ltb_spec 50 (length (Map_set c cacheKey
      {| data := response_data r; timestamp := now |}))) as [Hbig|Hok]; [|done].
    destruct (Map_set c cacheKey _) as [|[k0 e0] rest] eqn:E; [simpl in Hbig; lia|].
    change (Map_first_key ((k0, e0) :: rest)) with (Some k0). cbv iota beta.
    pose proof (Map_delete_first_length k0 e0 rest).
    simpl in Hset. destruct (Map_get c cacheKey); lia.
  - unfold clearHistory. destruct o; simpl; lia.
Qed.

(** X19.  A response whose body has a truthy [success] is served from the
    cache to the same message and language for two minutes, without a
    request; one whose [success] is falsy is returned and not cached. *)
Theorem X19_successful_reply_is_served_again
    c message language response success now now' :
  (length c ≤ 50)%nat →
  Get (response_data response) "success" = Some success →
  let resumed :=
    sendMessage_resume c (cache_key message language) (inl response) now in
  resumed.1 = inl (response_data response) ∧
  (ToBoolean success = true → now' - now < CACHE_DURATION →
     sendMessage resumed.2 message language now'
     = FromCache (response_data response)) ∧
  (ToBoolean success = false → resumed.2 = c).
Proof.
  intros Hlen Hsuccess resumed. subst resumed.
  unfold sendMessage_resume. rewrite Hsuccess. simpl.
  split; [done|]. split; [|by intros ->].
  intros -> Hlive. unfold sendMessage.
  set (entry := {| data := response_data response; timestamp := now |}).
  set (key := cache_key message language).
  assert (Map_get
            (if (50 <? length (Map_set c key entry))%nat
             then match Map_first_key (Map_set c key entry) with
                  | Some oldestKey => Map_delete (Map_set c key entry) oldestKey
                  | None => Map_set c key entry
                  end
             else Map_set c key entry) key = Some entry) as ->.
  { assert (Map_get (Map_set c key entry) key = Some entry) as Hget.
    { by rewrite Map_get_set, decide_True. }
    destruct (Nat.ltb_spec 50 (length (Map_set c key entry))) as [Hbig|_]; [|done].
    rewrite Map_set_length in Hbig.
    destruct (Map_get c key) eqn:Hc; [lia|].
    rewrite Map_set_fresh by done.
    destruct c as [|[k0 e0] rest]; [simpl in Hbig; lia|].
    change (Map_first_key (((k0, e0) :: rest) ++ [(key, entry)])) with (Some k0).
    cbv iota beta. rewrite Map_get_delete.
    rewrite decide_False.
    - rewrite <- Map_set_fresh by done. exact Hget.
    - intros ->. simpl in Hc. by rewrite String.eqb_refl in Hc. }
  simpl. by rewrite (proj2 (Z.ltb_lt _ _) Hlive).
Qed.

End MessageCache.

(** ** The fallback meal plan *)

Section FallbackMealPlan.

Import MealPlan.

Variable Math_random : nat → Q.
Variable request : MealPlanRequest.

#[local] Abbreviation Rand := OpenAIService.Rand.

Lemma map_indexed_cons {A B} (f : A → nat → Rand B) a l k i :
  map_indexed f (a :: l) k i
  = ((f a k i).1 :: (map_indexed f l (S k) (f a k i).2).1,
     (map_indexed f l (S k) (f a k i).2).2).
Proof.
  simpl. unfold OpenAIService.bind, OpenAIService.ret.
  destruct (f a k i) as [b j]. simpl.
  by destruct (map_indexed f l (S k) j).
Qed.

Lemma map_indexed_length {A B} (f : A → nat → Rand B) l k i :
  length (map_indexed f l k i).1 = length l.
Proof.
  revert k i. induction l as [|a l IH]; intros k i; [done|].
  rewrite map_indexed_cons. simpl. by rewrite IH.
Qed.

Lemma map_indexed_Forall {A B} (P : B → Prop) (f : A → nat → Rand B) l k i :
  (∀ a k i, P (f a k i).1) → Forall P (map_indexed f l k i).1.
Proof.
  intros Hf. revert k i. induction l as [|a l IH]; intros k i.
  - constructor.
  - rewrite map_indexed_cons. simpl. constructor; [apply Hf|apply IH].
Qed.

Lemma map_indexed_fmap {A B} (g : B → A) (f : A → nat → Rand B) l k i :
  (∀ a k i, g (f a k i).1 = a) → g <$> (map_indexed f l k i).1 = l.
Proof.
  intros Hf. revert k i. induction l as [|a l IH]; intros k i; [done|].
  rewrite map_indexed_cons. simpl. by rewrite Hf, IH.
Qed.

Lemma map_indexed_draws {A B} (f : A → nat → Rand B) c l k i :
  (∀ a k i, (f a k i).2 = (i + c)%nat) →
  (map_indexed f l k i).2 = (i + c * length l)%nat.
Proof.
  intros Hf. revert k i. induction l as [|a l IH]; intros k i.
  - simpl. lia.
  - rewrite map_indexed_cons. simpl. rewrite IH, Hf. lia.
Qed.

Lemma slice0_prefix {A} (l : list A) end_ : slice0 l end_ `prefix_of` l.
Proof. unfold slice0. eexists. symmetry. apply take_drop. Qed.

Lemma slice0_length {A} (l : list A) end_ :
  (length (slice0 l end_) ≤ length l)%nat.
Proof. apply prefix_length, slice0_prefix. Qed.

Lemma truncate_inject_Z z : truncate (inject_Z z) = z.
Proof.
  unfold truncate. destruct (Qle_bool 0 (inject_Z z)).
  - apply Qfloor_Z.
  - apply Qceiling_Z.
Qed.

Lemma slice0_integer {A} (l : list A) z :
  length (slice0 l (Fin (inject_Z z)))
  = Z.to_nat (if z <? 0 then Z.max (Z.of_nat (length l) + z) 0
              else Z.min z (Z.of_nat (length l))).
Proof.
  unfold slice0. rewrite truncate_inject_Z, length_take.
  destruct (Z.ltb_spec z 0); lia.
Qed.

Lemma fallback_meal_eq dayIndex timing mealIndex i :
  fallback_meal Math_random request dayIndex timing mealIndex i
  = ({| name := toLowerCase timing +:+ " meal " +:+ pretty (dayIndex + 1)%nat;
        description :=
          "Balanced " +:+ toLowerCase timing +:+ " for day " +:+
          pretty (dayIndex + 1)%nat;
        meal_timing := timing;
        dietary_category := "BALANCED";
        prep_time_minutes := (20 + floorQ (Math_random i * 20))%Q;
        difficulty_level := (1 + floorQ (Math_random (S i) * 3))%Q;
        calories := caloriesPerMeal request;
        protein_g := proteinPerMeal request;
        carbs_g := carbsPerMeal request;
        fats_g := fatsPerMeal request;
        fiber_g := (5 + floorQ (Math_random (S (S i)) * 5))%Q;
        sugar_g := (5 + floorQ (Math_random (S (S (S i))) * 10))%Q;
        sodium_mg := (300 + floorQ (Math_random (S (S (S (S i)))) * 400))%Q;
        ingredients :=
          [{| ingredient_name := "Main ingredient"; quantity := 100%Q;
              unit := "g"; category := "Protein" |}];
        instructions :=
          [{| step := 1; text := "Prepare ingredients" |};
           {| step := 2; text := "Cook according to preference" |}];
        allergens := [];
        image_url := EmptyString;
        portion_multiplier := 1%Q;
        is_optional := false |},
     S (S (S (S (S i))))).
Proof. reflexivity. Qed.

Lemma fallback_day_eq d dayIndex i :
  fallback_day Math_random request d dayIndex i
  = (let ms := map_indexed (fallback_meal Math_random request dayIndex)
                 (slice0 mealTimings (meals_per_day request)) 0 i in
     ({| day := d; day_index := dayIndex; meals := ms.1 |}, ms.2)).
Proof.
  unfold fallback_day, OpenAIService.bind, OpenAIService.ret.
  by destruct (map_indexed _ _ _ _).
Qed.

Lemma plan_days i :
  weekly_plan (generateFallbackMealPlan Math_random request i).1
  = (map_indexed (fallback_day Math_random request)
       (slice0 days (rotation_frequency_days request)) 0 i).1.
Proof.
  unfold generateFallbackMealPlan, OpenAIService.bind, OpenAIService.ret.
  by destruct (map_indexed _ _ _ _).
Qed.

Lemma plan_draws i :
  (generateFallbackMealPlan Math_random request i).2
  = (map_indexed (fallback_day Math_random request)
       (slice0 days (rotation_frequency_days request)) 0 i).2.
Proof.
  unfold generateFallbackMealPlan, OpenAIService.bind, OpenAIService.ret.
  by destruct (map_indexed _ _ _ _).
Qed.

Lemma plan_summary i :
  weekly_nutrition_summary (generateFallbackMealPlan Math_random request i).1
  = {| avg_daily_calories := target_calories_daily request;
       avg_daily_protein := target_protein_daily request;
       avg_daily_carbs := target_carbs_daily request;
       avg_daily_fats := target_fats_daily request;
       goal_adherence_percentage := 85%Q |}.
Proof.
  unfold generateFallbackMealPlan, OpenAIService.bind, OpenAIService.ret.
  by destruct (map_indexed _ _ _ _).
Qed.

(** Every meal of every day of the plan has the property [P], when every
    meal [fallback_meal] can make has it. *)
Lemma plan_meals_Forall (P : Meal → Prop) i :
  (∀ dayIndex timing mealIndex j,
     P (fallback_meal Math_random request dayIndex timing mealIndex j).1) →
  Forall (λ d, Forall P (meals d))
    (weekly_plan (generateFallbackMealPlan Math_random request i).1).
Proof.
  intros HP. rewrite plan_days. apply map_indexed_Forall.
  intros d k j. rewrite fallback_day_eq. simpl.
  apply map_indexed_Forall. intros timing mealIndex j'. apply HP.
Qed.

(** X20.  Whatever the request asks for, the fallback plan has at most
    seven days, the first days of the week in order, and at most three
    meals a day, the first of breakfast, lunch and dinner in order. *)
Theorem X20_fallback_plan_is_capped i :
  let plan := (generateFallbackMealPlan Math_random request i).1 in
  (day <$> weekly_plan plan) `prefix_of` days ∧
  (length (weekly_plan plan) ≤ 7)%nat ∧
  Forall (λ d, (meal_timing <$> meals d) `prefix_of` mealTimings ∧
               (length (meals d) ≤ 3)%nat) (weekly_plan plan).
Proof.
  intros plan. subst plan. rewrite plan_days. split; [|split].
  - rewrite map_indexed_fmap.
    + apply slice0_prefix.
    + intros d k j. by rewrite fallback_day_eq.
  - rewrite map_indexed_length.
    apply (slice0_length days (rotation_frequency_days request)).
  - apply map_indexed_Forall. intros d k j. rewrite fallback_day_eq. simpl.
    split.
    + rewrite map_indexed_fmap; [apply slice0_prefix|done].
    + rewrite map_indexed_length.
      apply (slice0_length mealTimings (meals_per_day request)).
Qed.

(** X21.  For whole numbers [n] of days and [m] of meals a day that are not
    negative, the plan has [min n 7] days of [min m 3] meals each, and
    making it takes five random numbers for every meal. *)
Theorem X21_plan_size_and_draws i n m :
  rotation_frequency_days request = Fin (inject_Z n) →
  meals_per_day request = Fin (inject_Z m) →
  0 ≤ n → 0 ≤ m →
  let '(plan, j) := generateFallbackMealPlan Math_random request i in
  length (weekly_plan plan) = Z.to_nat (Z.min n 7) ∧
  Forall (λ d, length (meals d) = Z.to_nat (Z.min m 3)) (weekly_plan plan) ∧
  j = (i + 5 * (Z.to_nat (Z.min n 7) * Z.to_nat (Z.min m 3)))%nat.
Proof.
  intros Hn Hm Hn0 Hm0.
  pose proof (plan_days i) as Hdays. pose proof (plan_draws i) as Hdraws.
  destruct (generateFallbackMealPlan Math_random request i) as [plan j].
  simpl in Hdays, Hdraws. rewrite Hdays, Hdraws, Hn.
  assert (length (slice0 mealTimings (meals_per_day request))
          = Z.to_nat (Z.min m 3)) as Hmeals.
  { rewrite Hm, slice0_integer. simpl length.
    destruct (Z.ltb_spec m 0); [lia|done]. }
  assert (length (slice0 days (Fin (inject_Z n))) = Z.to_nat (Z.min n 7))
    as Hlen.
  { rewrite slice0_integer. simpl length.
    destruct (Z.ltb_spec n 0); [lia|done]. }
  split; [|split].
  - by rewrite map_indexed_length.
  - apply map_indexed_Forall. intros d k j'. rewrite fallback_day_eq. simpl.
    by rewrite map_indexed_length.
  - rewrite (map_indexed_draws _ (5 * Z.to_nat (Z.min m 3))).
    + rewrite Hlen. lia.
    + intros d k j'. rewrite fallback_day_eq. simpl.
      rewrite (map_indexed_draws _ 5).
      * rewrite Hmeals. lia.
      * intros timing mealIndex j''. rewrite fallback_meal_eq. simpl. lia.
Qed.

(** X22.  A negative whole number counts from the end: asked for [-n] days
    the plan has the first [7 - n] days of the week, and asked for [-m]
    meals a day it has [3 - m] meals a day (none below zero). *)
Theorem X22_negative_counts_from_the_end i n m :
  rotation_frequency_days request = Fin (inject_Z (- n)) →
  meals_per_day request = Fin (inject_Z (- m)) →
  0 < n → 0 < m →
  let plan := (generateFallbackMealPlan Math_random request i).1 in
  length (weekly_plan plan) = Z.to_nat (7 - n) ∧
  Forall (λ d, length (meals d) = Z.to_nat (3 - m)) (weekly_plan plan).
Proof.
  intros Hn Hm Hn0 Hm0 plan. subst plan. rewrite plan_days. split.
  - rewrite map_indexed_length, Hn, slice0_integer. simpl length.
    destruct (Z.ltb_spec (- n) 0); lia.
  - apply map_indexed_Forall. intros d k j. rewrite fallback_day_eq. simpl.
    rewrite map_indexed_length, Hm, slice0_integer. simpl length.
    destruct (Z.ltb_spec (- m) 0); lia.
Qed.

Lemma floor_scaled_range r (N : Z) :
  (0 <= r)%Q → (r < 1)%Q → 0 < N →
  (0 <= floorQ (r * inject_Z N) <= inject_Z (N - 1))%Q.
Proof.
  intros H0 H1 HN. unfold floorQ.
  assert (0 < inject_Z N)%Q as HNq.
  { change 0%Q with (inject_Z 0). by rewrite <- Zlt_Qlt. }
  assert (0 <= Qfloor (r * inject_Z N))%Z as Hlo.
  { change 0%Z with (Qfloor 0). apply Qfloor_resp_le. nra. }
  assert (Qfloor (r * inject_Z N) < N)%Z as Hhi.
  { rewrite Zlt_Qlt.
    apply Qle_lt_trans with (r * inject_Z N)%Q; [apply Qfloor_le|]. nra. }
  split.
  - change 0%Q with (inject_Z 0). rewrite <- Zle_Qle. lia.
  - rewrite <- Zle_Qle. lia.
Qed.

(** X23.  With a random source that keeps to [0, 1), every meal of the plan
    has a preparation time from 20 to 39 minutes, a difficulty from 1 to 3,
    5 to 9 grams of fibre, 5 to 14 grams of sugar and 300 to 699 milligrams
    of sodium. *)
Theorem X23_random_fields_stay_in_range i :
  (∀ k, (0 <= Math_random k)%Q ∧ (Math_random k < 1)%Q) →
  Forall (λ d, Forall (λ meal,
      (20 <= prep_time_minutes meal <= 39)%Q ∧
      (1 <= difficulty_level meal <= 3)%Q ∧
      (5 <= fiber_g meal <= 9)%Q ∧
      (5 <= sugar_g meal <= 14)%Q ∧
      (300 <= sodium_mg meal <= 699)%Q) (meals d))
    (weekly_plan (generateFallbackMealPlan Math_random request i).1).
Proof.
  intros Hr. apply plan_meals_Forall.
  intros dayIndex timing mealIndex j. rewrite fallback_meal_eq.
  cbn [fst prep_time_minutes difficulty_level fiber_g sugar_g sodium_mg].
  pose proof (λ k N, floor_scaled_range (Math_random k) N
                       (proj1 (Hr k)) (proj2 (Hr k))) as Hf.
  pose proof (Hf j 20 eq_refl) as H1.
  pose proof (Hf (S j) 3 eq_refl) as H2.
  pose proof (Hf (S (S j)) 5 eq_refl) as H3.
  pose proof (Hf (S (S (S j))) 10 eq_refl) as H4.
  pose proof (Hf (S (S (S (S j)))) 400 eq_refl) as H5.
  change (inject_Z 20) with 20%Q in H1. change (inject_Z (20 - 1)) with 19%Q in H1.
  change (inject_Z 3) with 3%Q in H2. change (inject_Z (3 - 1)) with 2%Q in H2.
  change (inject_Z 5) with 5%Q in H3. change (inject_Z (5 - 1)) with 4%Q in H3.
  change (inject_Z 10) with 10%Q in H4. change (inject_Z (10 - 1)) with 9%Q in H4.
  change (inject_Z 400) with 400%Q in H5.
  change (inject_Z (400 - 1)) with 399%Q in H5.
  repeat split; lra.
Qed.

Lemma rounded_share (t m : Z) :
  3 < m → 6 < t →
  3 * Qfloor (inject_Z t / inject_Z m + (1 # 2)) < t.
Proof.
  intros Hm Ht.
  set (q := (inject_Z t / inject_Z m)%Q).
  pose proof (Qfloor_le (q + (1 # 2))) as Hfloor.
  assert (4 <= inject_Z m)%Q as Hm'.
  { change 4%Q with (inject_Z 4). rewrite <- Zle_Qle. lia. }
  assert (7 <= inject_Z t)%Q as Ht'.
  { change 7%Q with (inject_Z 7). rewrite <- Zle_Qle. lia. }
  assert (q * inject_Z m == inject_Z t)%Q as Hq.
  { unfold q. field. lra. }
  assert (0 <= q)%Q as Hq0.
  { unfold q. apply Qle_shift_div_l; lra. }
  assert (4 * q <= inject_Z t)%Q as Hshare by nra.
  assert (3 * inject_Z (Qfloor (q + (1 # 2))) < inject_Z t)%Q as H by lra.
  rewrite Zlt_Qlt, inject_Z_mult. exact H.
Qed.

(** X24.  Asked for more than three meals a day, with a whole daily calorie
    target above 6, the plan gives every day three meals, each with the
    rounded share of one of the meals asked for: the meals of a day stay
    below the daily average the summary of the same plan reports. *)
Theorem X24_more_than_three_meals_fall_short i t m :
  target_calories_daily request = Fin (inject_Z t) →
  meals_per_day request = Fin (inject_Z m) →
  3 < m → 6 < t →
  let plan := (generateFallbackMealPlan Math_random request i).1 in
  avg_daily_calories (weekly_nutrition_summary plan) = Fin (inject_Z t) ∧
  Forall (λ d,
      length (meals d) = 3%nat ∧
      Forall (λ meal, ∃ c : Z,
                calories meal = Fin (inject_Z c) ∧ 3 * c < t) (meals d))
    (weekly_plan plan).
Proof.
  intros Ht Hm Hm3 Ht6 plan. subst plan. split.
  - by rewrite plan_summary.
  - rewrite plan_days. apply map_indexed_Forall.
    intros d k j. rewrite fallback_day_eq. simpl. split.
    + rewrite map_indexed_length, Hm, slice0_integer. simpl length.
      destruct (Z.ltb_spec m 0); lia.
    + apply map_indexed_Forall. intros timing mealIndex j'.
      rewrite fallback_meal_eq. cbn [fst calories].
      exists (Qfloor (inject_Z t / inject_Z m + (1 # 2))).
      split; [|by apply rounded_share].
      unfold caloriesPerMeal. rewrite Ht, Hm. unfold div.
      destruct (Qeq_bool (inject_Z m) 0) eqn:E; [|done].
      apply Qeq_bool_eq in E. change 0%Q with (inject_Z 0) in E.
      apply (proj1 (inject_Z_injective m 0)) in E. lia.
Qed.

End FallbackMealPlan.

(** ** The further properties at concrete inputs *)

Section MoreInstances.

Import Scenario Examples.

Lemma X2_witness :
  OpenAIService.createRequestKey "soup" "analyze"
  ≠ OpenAIService.createRequestKey "soup" "text".
Proof.
  apply (X2_request_key_namespaces "analyze" "text" "soup" "soup").
  - unfold Keys.request_types. rewrite !elem_of_cons. auto.
  - unfold Keys.request_types. rewrite !elem_of_cons. auto.
  - discriminate.
Defined.

Lemma X3_witness :
  OpenAIService.analyze_key "aGVsbG8=" "english" (Some long_text)
    = OpenAIService.analyze_key "aGVsbG8=" "hebrew" (Some long_text) ∧
  OpenAIService.analyzeMealImage zero_random true cached_long
    "aGVsbG8=" "hebrew" (Some long_text) [] 1000
    = (OpenAIService.Now (JObj [("calories"%string, OpenAIService.JQ 450)]),
       cached_long).
Proof.
  apply (X3_long_update_text_hides_language zero_random true cached_long
           "aGVsbG8=" long_text "english" "hebrew" [] 1000).
  - vm_compute. lia.
  - vm_compute. reflexivity.
Defined.

Lemma X5_witness :
  OpenAIService.Map_get
    (OpenAIService.setCachedResponse full_cache "new" JNull 1000) "!"
  = if bool_decide ((OpenAIService.MAX_CACHE_SIZE ≤ length full_cache)%nat
                    ∧ OpenAIService.Map_first_key full_cache = Some "!"%string)
    then None else OpenAIService.Map_get full_cache "!".
Proof.
  apply (X5_cache_write_leaves_other_keys full_cache "new" JNull 1000 "!").
  discriminate.
Defined.

Lemma X6_witness :
  ∃ oldestKey oldest rest,
    full_cache = (oldestKey, oldest) :: rest ∧
    if decide ("!"%string = oldestKey)
    then OpenAIService.setCachedResponse full_cache "!" JNull 1000
         = rest ++ [("!"%string,
                     {| OpenAIService.data := JNull;
                        OpenAIService.timestamp := 1000 |})]
    else OpenAIService.setCachedResponse full_cache "!" JNull 1000
         = OpenAIService.Map_set rest "!"
             {| OpenAIService.data := JNull; OpenAIService.timestamp := 1000 |} ∧
         OpenAIService.Map_get
           (OpenAIService.setCachedResponse full_cache "!" JNull 1000)
           oldestKey = None ∧
         S (length (OpenAIService.setCachedResponse full_cache "!" JNull 1000))
         = OpenAIService.MAX_CACHE_SIZE.
Proof.
  apply (X6_rewrite_in_full_cache_evicts full_cache "!" JNull 1000
           {| OpenAIService.data := JObj []; OpenAIService.timestamp := 1 |}).
  - apply (bool_decide_unpack _). vm_compute. reflexivity.
  - reflexivity.
  - vm_compute. reflexivity.
Defined.

Lemma X7_witness :
  let key := OpenAIService.analyze_key "aGVsbG8=" "english" None in
  let fallback :=
    (OpenAIService.generateEnhancedFallbackAnalysis zero_random "english" None
       (OpenAIService.draws analysing)).1 in
  ∃ s', OpenAIService.analyzeMealImage_resume
          (OpenAIService.upstream_settles (@no_parse string)
             (@no_parse JSValue) zero_random analysing 0
             (OpenAIService.Failed server_error)) 0 key 5
        = Some (inl fallback, s') ∧
        OpenAIService.analyzeMealImage zero_random true s'
          "aGVsbG8=" "english" None [] 1000
        = (OpenAIService.Now fallback, s').
Proof.
  apply (X7_fallback_result_is_cached (@no_parse string) (@no_parse JSValue)
           zero_random true analysing 0 "aGVsbG8=" "english" None []
           server_error 5 1000).
  - vm_compute. reflexivity.
  - vm_compute. reflexivity.
  - vm_compute. reflexivity.
Defined.

Lemma X8_witness : OpenAIService.results_truthy cached_at_5.
Proof.
  apply (X8_analysis_results_stay_truthy (@no_parse string)
           (@no_parse JSValue) zero_random true cached_at_5).
  exact reachable_cached_at_5.
Defined.

Lemma X9_witness :
  OpenAIService.analyzeMealImage zero_random true analysing
    "aGVsbG8=" "english" None [] 10
    = (OpenAIService.Shared 0, analysing) ∧
  OpenAIService.performed analysing = 1%nat.
Proof.
  apply (X9_second_call_joins_the_first zero_random true OpenAIService.init
           "aGVsbG8=" "english" None [] 0 10 0%nat).
  - vm_compute. reflexivity.
  - lia.
Defined.

Lemma X10_witness :
  let s' := (OpenAIService.generateText_resume OpenAIService.init
               (OpenAIService.Responded None) "a haiku about soup" 0).2 in
  OpenAIService.Map_get (OpenAIService.requestCache s')
    (OpenAIService.createRequestKey "a haiku about soup" "text")
    = Some {| OpenAIService.data := JStr EmptyString;
              OpenAIService.timestamp := 0 |} ∧
  OpenAIService.generateText true s' "a haiku about soup" 1
    = (OpenAIService.Called
         (OpenAIService.createRequestKey "a haiku about soup" "text"), s').
Proof.
  apply (X10_empty_completion_is_never_served OpenAIService.init None
           "a haiku about soup" 0 1).
  reflexivity.
Defined.

Lemma X11_witness :
  let s' := (OpenAIService.generateText_resume OpenAIService.init
               (OpenAIService.Responded (Some "eat more greens"))
               (long_text +:+ ", in English") 0).2 in
  OpenAIService.generateText true s' (long_text +:+ ", in Hebrew") 1000
    = (OpenAIService.FromCache (JStr "eat more greens"), s').
Proof.
  apply (X11_completion_is_shared_by_prompt_prefix true OpenAIService.init
           "eat more greens" (long_text +:+ ", in English")
           (long_text +:+ ", in Hebrew") 0 1000).
  - reflexivity.
  - vm_compute. reflexivity.
  - vm_compute. reflexivity.
Defined.

Lemma X12_witness :
  let key := OpenAIService.analyze_key "aGVsbG8=" "english" None in
  let result :=
    (OpenAIService.generateEnhancedFallbackAnalysis zero_random "english" None
       (OpenAIService.draws analysing)).1 in
  (OpenAIService.analyzeMealImage zero_random true
     (OpenAIService.clearCaches analysing) "aGVsbG8=" "english" None [] 10).1
    = OpenAIService.Started (OpenAIService.performed analysing) ∧
  ∃ s', OpenAIService.analyzeMealImage_resume
          (OpenAIService.upstream_settles (@no_parse string)
             (@no_parse JSValue) zero_random
             (OpenAIService.clearCaches analysing) 0
             (OpenAIService.Responded (Some "not json"))) 0 key 20
        = Some (inl result, s') ∧
        OpenAIService.Map_get (OpenAIService.requestCache s') key
        = Some {| OpenAIService.data := result;
                  OpenAIService.timestamp := 20 |}.
Proof.
  apply (X12_clearCaches_keeps_calls_running (@no_parse string)
           (@no_parse JSValue) zero_random true analysing 0
           "aGVsbG8=" "english" None []
           (OpenAIService.Responded (Some "not json")) 10 20).
  - vm_compute. reflexivity.
  - vm_compute. reflexivity.
Defined.

Lemma X13_witness :
  ∃ error,
    (inr (http_error 500) : Client.Outcome) = inr error ∧
    Client.status error ≠ Some 401 ∧ Client.status error ≠ Some 403 ∧
    Client.status error ≠ Some 422 ∧ Client.name error ≠ "AbortError"%string.
Proof.
  apply (X13_only_retryable_failures_are_followed Client.api_request
           (world web_device [inr (http_error 500); inl ok_response])
           0%nat (inr (http_error 500))).
  - vm_compute. reflexivity.
  - vm_compute. lia.
Defined.

Lemma X14_witness :
  let w := world web_device [inr (http_error 500); inl ok_response] in
  let '(o, w', log) := Client.retryRequest Client.api_request w 1 in
  Client.device w' = Client.device w ∧
  Client.sent w' = Client.sent w ++ replicate (length (Client.attempts_of log))
                                      (Client.authorization (Client.device w)).
Proof.
  pose proof (X14_run_without_401_keeps_the_device
                (world web_device [inr (http_error 500); inl ok_response]))
    as H.
  cbv zeta.
  destruct (Client.retryRequest Client.api_request
              (world web_device [inr (http_error 500); inl ok_response]) 1)
    as [[o w'] log] eqn:E.
  apply H. vm_compute in E. injection E as <- <- <-.
  repeat constructor; intros error [= <-]; discriminate.
Defined.

Lemma X15_witness :
  let w := world web_device [inr (http_error 401); inl ok_response] in
  let w' := (Client.api_request w).2 in
  Client.sent (Client.world_after Client.api_request w' 2)
    = Client.sent w' ++ replicate 2 None ∧
  Client.location (Client.device w')
    = (λ _, "/signin"%string) <$> Client.location (Client.device w).
Proof.
  apply (X15_no_token_is_sent_after_a_401
           (world web_device [inr (http_error 401); inl ok_response])
           (http_error 401) 2%nat).
  - reflexivity.
  - reflexivity.
  - left. reflexivity.
Defined.

Lemma X17_witness :
  let a' := {| AuthAPI.tokenCache := JStr "abc"; AuthAPI.tokenCacheTime := 0 |} in
  (1000 - 0 < AuthAPI.CACHE_DURATION →
     AuthAPI.getStoredToken a' phone_without_secure_store 1000
     = (JStr "abc", a')) ∧
  (AuthAPI.CACHE_DURATION ≤ 1000 - 0 →
     (AuthAPI.getStoredToken a' phone_without_secure_store 1000).1
     = from_option JStr JNull (Client.request_token phone_without_secure_store)).
Proof.
  apply (X17_signed_in_token_is_cached AuthAPI.init
           (world web_device [inl token_response]) 0 token_response
           {| AuthAPI.tokenCache := JStr "abc"; AuthAPI.tokenCacheTime := 0 |}
           {| Client.device := web_device; Client.upcoming := [];
              Client.sent := [Some "Bearer tok"%string] |}
           (JStr "abc") phone_without_secure_store 1000).
  - vm_compute. reflexivity.
  - reflexivity.
  - reflexivity.
Defined.

Lemma X18_witness :
  (length (ChatAPI.sendMessage_resume [] "hi_english" (inl chat_response) 0).2
     ≤ 50)%nat ∧
  (length (ChatAPI.clearHistory [] (inl chat_response)).2 ≤ 50)%nat.
Proof.
  apply (X18_message_cache_is_bounded [] "hi_english" (inl chat_response) 0).
  simpl. lia.
Defined.

Lemma X19_witness :
  let resumed :=
    ChatAPI.sendMessage_resume [] (ChatAPI.cache_key "hi" "english")
      (inl chat_response) 0 in
  resumed.1 = inl (Client.response_data chat_response) ∧
  (ToBoolean (JBool true) = true → 1000 - 0 < ChatAPI.CACHE_DURATION →
     ChatAPI.sendMessage resumed.2 "hi" "english" 1000
     = ChatAPI.FromCache (Client.response_data chat_response)) ∧
  (ToBoolean (JBool true) = false → resumed.2 = []).
Proof.
  apply (X19_successful_reply_is_served_again [] "hi" "english"
           chat_response (JBool true) 0 1000).
  - simpl. lia.
  - reflexivity.
Defined.

Lemma X21_witness :
  let '(plan, j) :=
    MealPlan.generateFallbackMealPlan half_random five_meals 0%nat in
  length (MealPlan.weekly_plan plan) = Z.to_nat (Z.min 14 7) ∧
  Forall (λ d, length (MealPlan.meals d) = Z.to_nat (Z.min 5 3))
    (MealPlan.weekly_plan plan) ∧
  j = (0 + 5 * (Z.to_nat (Z.min 14 7) * Z.to_nat (Z.min 5 3)))%nat.
Proof.
  apply (X21_plan_size_and_draws half_random five_meals 0%nat 14 5).
  - reflexivity.
  - reflexivity.
  - lia.
  - lia.
Defined.

Lemma X22_witness :
  let plan :=
    (MealPlan.generateFallbackMealPlan half_random negative_counts 0%nat).1 in
  length (MealPlan.weekly_plan plan) = Z.to_nat (7 - 2) ∧
  Forall (λ d, length (MealPlan.meals d) = Z.to_nat (3 - 1))
    (MealPlan.weekly_plan plan).
Proof.
  apply (X22_negative_counts_from_the_end half_random negative_counts 0%nat 2 1).
  - reflexivity.
  - reflexivity.
  - lia.
  - lia.
Defined.

Lemma X23_witness :
  Forall (λ d, Forall (λ meal,
      (20 <= MealPlan.prep_time_minutes meal <= 39)%Q ∧
      (1 <= MealPlan.difficulty_level meal <= 3)%Q ∧
      (5 <= MealPlan.fiber_g meal <= 9)%Q ∧
      (5 <= MealPlan.sugar_g meal <= 14)%Q ∧
      (300 <= MealPlan.sodium_mg meal <= 699)%Q) (MealPlan.meals d))
    (MealPlan.weekly_plan
       (MealPlan.generateFallbackMealPlan half_random five_meals 0%nat).1).
Proof.
  apply (X23_random_fields_stay_in_range half_random five_meals 0%nat).
  intros k. split; [discriminate|reflexivity].
Defined.

Lemma X24_witness :
  let plan :=
    (MealPlan.generateFallbackMealPlan half_random five_meals 0%nat).1 in
  MealPlan.avg_daily_calories (MealPlan.weekly_nutrition_summary plan)
    = Fin (inject_Z 2000) ∧
  Forall (λ d,
      length (MealPlan.meals d) = 3%nat ∧
      Forall (λ meal, ∃ c : Z,
                MealPlan.calories meal = Fin (inject_Z c) ∧ 3 * c < 2000)
        (MealPlan.meals d))
    (MealPlan.weekly_plan plan).
Proof.
  apply (X24_more_than_three_meals_fall_short half_random five_meals 0%nat
           2000 5).
  - reflexivity.
  - reflexivity.
  - lia.
  - lia.
Defined.

End MoreInstances.
